(** * gl_texture: a textured quad drawn through OpenGL, GLFW and GLEW

    A shallow embedding of [src/gl_texture.cpp].  The program is a straight
    line of calls into three collaborators (the C++ iostream library, the
    OpenGL driver and the GLFW/GLEW windowing layer) followed by one render
    loop.  Each C++ function becomes a computation in a small monad that
    threads the history of completed calls; whatever a collaborator returns
    is supplied by a [World], which may answer differently depending on the
    whole interaction so far.  A function of the source that can be left by
    an exception returns an [Outcome]. *)

From Stdlib Require Import ZArith QArith Ascii String.
From Stdlib.Strings Require Import Byte.
From stdpp Require Import base decidable numbers list gmap sets strings.

Local Open Scope string_scope.
Local Open Scope list_scope.
Local Open Scope Z_scope.

(** ** Machine integers

    C integer types are modelled as [Z] with the conversions written out. *)

(** Conversion to [unsigned int] (and [GLuint]): reduction modulo 2^32. *)
Definition u32 (z : Z) : Z := z mod 2 ^ 32.

(** Conversion to [unsigned long] and [size_t]: reduction modulo 2^64. *)
Definition u64 (z : Z) : Z := z mod 2 ^ 64.

(** Conversion to [int] (and [GLint], [GLsizei]): two's complement. *)
Definition i32 (z : Z) : Z :=
  let u := z mod 2 ^ 32 in if u <? 2 ^ 31 then u else u - 2 ^ 32.

Definition GLuint := Z.
Definition GLint := Z.
Definition GLsizei := Z.
Definition GLenum := Z.
Definition GLboolean := Z.
Definition GLbitfield := Z.

(** Every [GLfloat] in the source is one of the literals [1.0f], [-1.0f],
    [0.0f], [.5f] and [0]; no arithmetic is ever done on them.  Each is a
    dyadic rational that binary32 represents exactly, so a literal is
    modelled by the rational it denotes. *)
Definition GLfloat := Q.

(** [sizeof(GLfloat)]: OpenGL fixes [GLfloat] at 32 bits. *)
Definition sizeof_GLfloat : Z := 4.

(** A [GLFWwindow*]; [NULL] is the null pointer. *)
Definition GLFWwindow := Z.
Definition NULL : Z := 0.

(** ** Constants of the headers

    The macros below come from [GL/glew.h], [GLFW/glfw3.h] and [cstdlib];
    the values are the ones the OpenGL registry, GLFW 3 and the C library
    assign to them. *)

Definition GL_FALSE : Z := 0.
Definition GL_TRUE : Z := 1.
Definition GL_TRIANGLE_STRIP : GLenum := 0x0005.
Definition GL_DEPTH_BUFFER_BIT : GLbitfield := 0x00000100.
Definition GL_COLOR_BUFFER_BIT : GLbitfield := 0x00004000.
Definition GL_TEXTURE_2D : GLenum := 0x0DE1.
Definition GL_UNSIGNED_BYTE : GLenum := 0x1401.
Definition GL_FLOAT : GLenum := 0x1406.
Definition GL_RGB : GLenum := 0x1907.
Definition GL_LINEAR : GLenum := 0x2601.
Definition GL_TEXTURE_MAG_FILTER : GLenum := 0x2800.
Definition GL_TEXTURE_MIN_FILTER : GLenum := 0x2801.
Definition GL_TEXTURE0 : GLenum := 0x84C0.
Definition GL_ARRAY_BUFFER : GLenum := 0x8892.
Definition GL_STATIC_DRAW : GLenum := 0x88E4.
Definition GL_FRAGMENT_SHADER : GLenum := 0x8B30.
Definition GL_VERTEX_SHADER : GLenum := 0x8B31.
Definition GL_COMPILE_STATUS : GLenum := 0x8B81.
Definition GL_LINK_STATUS : GLenum := 0x8B82.
Definition GL_INFO_LOG_LENGTH : GLenum := 0x8B84.

Definition GLFW_SAMPLES : Z := 0x0002100D.
Definition GLFW_CONTEXT_VERSION_MAJOR : Z := 0x00022002.
Definition GLFW_CONTEXT_VERSION_MINOR : Z := 0x00022003.
Definition GLFW_OPENGL_FORWARD_COMPAT : Z := 0x00022006.
Definition GLFW_OPENGL_PROFILE : Z := 0x00022008.
Definition GLFW_OPENGL_CORE_PROFILE : Z := 0x00032001.

Definition EXIT_SUCCESS : Z := 0.
Definition EXIT_FAILURE : Z := 1.

(** [const unsigned int SIZE = 512;] *)
Definition SIZE : Z := 512.

(** ** Strings and byte buffers *)

(** [count] copies of the character [ch]. *)
Fixpoint std_string_fill (count : nat) (ch : ascii) : string :=
  match count with
  | O => EmptyString
  | S n => String ch (std_string_fill n ch)
  end.

(** ** Exceptions

    The statements of the source that can throw are the constructions
    [std::string(count, ' ')] of the three log buffers: the constructor
    throws [std::length_error] for a [count] above [max_size()].  Nothing
    in the source catches an exception, so one that is thrown leaves every
    function on its way and ends the process through [std::terminate].
    Running out of memory is not modelled. *)
Inductive Exception : Type := std_length_error.

(** How the evaluation of a function body ends. *)
Inductive Outcome (A : Type) : Type :=
  | Returned (a : A)
  | Thrown (e : Exception).
Arguments Returned {A} a.
Arguments Thrown {A} e.

#[global] Instance Exception_eq_dec : EqDecision Exception.
Proof. solve_decision. Defined.

#[global] Instance Outcome_eq_dec {A} `{EqDecision A} : EqDecision (Outcome A).
Proof. solve_decision. Defined.

(** [std::string::max_size()] where [size_t] has 64 bits.  The exact value
    is the library's (of the order of 2^63 in libstdc++); the runs of this
    program depend only on its lying between the largest [unsigned int]
    and 2^64 - 2^31, so that every count converted from an [unsigned int]
    fits and no count converted to [unsigned long] from a negative [int]
    does. *)
Definition std_string_max_size : Z := 2 ^ 63 - 1.

(** [std::string(count, ch)] for a [count] already converted to [size_t]. *)
Definition std_string (count : Z) (ch : ascii) : Outcome string :=
  if std_string_max_size <? count then Thrown std_length_error
  else Returned (std_string_fill (Z.to_nat count) ch).

(** What a C API sees behind [s.c_str()] when no length is passed: the
    characters up to the first NUL. *)
Fixpoint c_str (s : string) : string :=
  match s with
  | EmptyString => EmptyString
  | String c rest => if Ascii.eqb c Ascii.zero then EmptyString else String c (c_str rest)
  end.

Fixpoint string_take (n : nat) (s : string) : string :=
  match n, s with
  | S m, String c rest => String c (string_take m rest)
  | _, _ => EmptyString
  end.

Fixpoint string_drop (n : nat) (s : string) : string :=
  match n, s with
  | S m, String _ rest => string_drop m rest
  | _, _ => s
  end.

(** The store done by [glGetShaderInfoLog] and [glGetProgramInfoLog] into the
    caller's buffer [buf]: at most [bufSize - 1] characters of the driver's
    log followed by a NUL; the rest of the buffer is left alone, and nothing
    is stored for a [bufSize] that is not positive. *)
Definition gl_store_info_log (bufSize : GLsizei) (log buf : string) : string :=
  if bufSize <=? 0 then buf
  else
    let n := Nat.min (String.length log) (Z.to_nat (bufSize - 1)) in
    string_take n log +:+ String Ascii.zero (string_drop (S n) buf).

(** [std::vector<char> buffer(n)]: [n] value-initialised characters. *)
Definition std_vector_char (n : Z) : list byte := replicate (Z.to_nat n) x00.

(** An input file stream: [None] once the stream is not good (the file could
    not be opened, or an earlier read hit the end), otherwise the bytes that
    have not been extracted yet. *)
Definition ifstream := option (list byte).

(** [std::istream::read(s, count)] on a destination that currently holds
    [buf]: extracts up to [count] bytes and stores them at the front of the
    destination.  A stream that is not good extracts nothing; a stream that
    runs dry before [count] bytes stops being good. *)
Definition istream_read (st : ifstream) (buf : list byte) (count : nat)
  : list byte * list byte * ifstream :=
  match st with
  | None => (buf, [], None)
  | Some data =>
      let got := take count data in
      (got ++ drop (length got) buf, got,
       if (length got <? count)%nat then None else Some (drop count data))
  end.

(** Reading a stream through a pair of [std::istreambuf_iterator<char>]:
    everything up to end of file, nothing for a stream that is not open. *)
Definition istreambuf_all (st : ifstream) : string :=
  match st with
  | None => EmptyString
  | Some data => string_of_list_byte data
  end.

(** ** Completed calls

    One constructor per library call of the source, carrying the arguments
    as passed (after the implicit conversions of the call) and, last, what
    came back: the return value, or the content of the output parameter
    after the call. *)
Inductive Event : Type :=
  (* iostream *)
  | Ev_cout (line : string)
  | Ev_cerr (line : string)
  | Ev_ifstream_open (path : string) (binary : bool) (is_open : bool)
  | Ev_ifstream_get_all (data : string)
  | Ev_ifstream_read (count : Z) (extracted : list byte)
  | Ev_ifstream_close
  (* shaders and programs *)
  | Ev_glCreateShader (type : GLenum) (ret : GLuint)
  | Ev_glShaderSource (shader : GLuint) (count : GLsizei) (source : string)
  | Ev_glCompileShader (shader : GLuint)
  | Ev_glGetShaderiv (shader : GLuint) (pname : GLenum) (params : GLint)
  | Ev_glGetShaderInfoLog (shader : GLuint) (bufSize : GLsizei) (infoLog : string)
  | Ev_glCreateProgram (ret : GLuint)
  | Ev_glAttachShader (program shader : GLuint)
  | Ev_glBindFragDataLocation (program color : GLuint) (name : string)
  | Ev_glLinkProgram (program : GLuint)
  | Ev_glGetProgramiv (program : GLuint) (pname : GLenum) (params : GLint)
  | Ev_glGetProgramInfoLog (program : GLuint) (bufSize : GLsizei) (infoLog : string)
  | Ev_glDeleteShader (shader : GLuint)
  | Ev_glUseProgram (program : GLuint)
  (* vertex arrays and buffers *)
  | Ev_glGenVertexArrays (n : GLsizei) (arrays : GLuint)
  | Ev_glBindVertexArray (array : GLuint)
  | Ev_glGenBuffers (n : GLsizei) (buffers : GLuint)
  | Ev_glBindBuffer (target : GLenum) (buffer : GLuint)
  | Ev_glBufferData (target : GLenum) (size : Z) (data : list GLfloat) (usage : GLenum)
  | Ev_glGetAttribLocation (program : GLuint) (name : string) (ret : GLint)
  | Ev_glVertexAttribPointer (index : GLuint) (size : GLint) (type : GLenum)
      (normalized : GLboolean) (stride : GLsizei) (pointer : Z)
  | Ev_glEnableVertexAttribArray (index : GLuint)
  (* textures *)
  | Ev_glGenTextures (n : GLsizei) (textures : GLuint)
  | Ev_glBindTexture (target : GLenum) (texture : GLuint)
  | Ev_glTexParameteri (target pname : GLenum) (param : GLint)
  | Ev_glTexImage2D (target : GLenum) (level internalformat : GLint)
      (width height : GLsizei) (border : GLint) (format type : GLenum)
      (pixels : list byte)
  | Ev_glGetUniformLocation (program : GLuint) (name : string) (ret : GLint)
  | Ev_glUniform1i (location v0 : GLint)
  | Ev_glActiveTexture (texture : GLenum)
  (* drawing *)
  | Ev_glClearColor (red green blue alpha : GLfloat)
  | Ev_glClear (mask : GLbitfield)
  | Ev_glDrawArrays (mode : GLenum) (first : GLint) (count : GLsizei)
  (* GLFW and GLEW *)
  | Ev_glfwInit (ret : Z)
  | Ev_glfwWindowHint (hint value : Z)
  | Ev_glfwCreateWindow (width height : Z) (title : string)
      (monitor share : Z) (ret : GLFWwindow)
  | Ev_glfwMakeContextCurrent (window : GLFWwindow)
  | Ev_glfwTerminate
  | Ev_glewExperimental (value : GLboolean)
  | Ev_glewInit (ret : Z)
  | Ev_glewIsSupported (name : string) (ret : GLboolean)
  | Ev_glfwWindowShouldClose (window : GLFWwindow) (ret : Z)
  | Ev_glfwSwapBuffers (window : GLFWwindow)
  | Ev_glfwPollEvents.

Definition History := list Event.

(** ** The collaborators

    For every call that hands something back, what it hands back, as a
    function of the interaction so far and of the arguments.  An output
    parameter the library may leave untouched is an [option]. *)
Record World : Type := {
  w_file : string -> option (list byte);
  w_glCreateShader : History -> GLenum -> GLuint;
  w_glGetShaderiv : History -> GLuint -> GLenum -> option GLint;
  w_glGetShaderInfoLog : History -> GLuint -> string;
  w_glCreateProgram : History -> GLuint;
  w_glGetProgramiv : History -> GLuint -> GLenum -> option GLint;
  w_glGetProgramInfoLog : History -> GLuint -> string;
  w_glGenVertexArrays : History -> GLuint;
  w_glGenBuffers : History -> GLuint;
  w_glGetAttribLocation : History -> GLuint -> string -> GLint;
  w_glGenTextures : History -> GLuint;
  w_glGetUniformLocation : History -> GLuint -> string -> GLint;
  w_glfwInit : History -> Z;
  w_glfwCreateWindow : History -> GLFWwindow;
  w_glewInit : History -> Z;
  w_glewIsSupported : History -> string -> GLboolean;
  w_glfwWindowShouldClose : History -> GLFWwindow -> Z
}.

(** ** The monad of calls *)

Definition M (A : Type) : Type := History -> A * History.

Definition ret {A} (a : A) : M A := fun h => (a, h).

Definition bind {A B} (m : M A) (k : A -> M B) : M B :=
  fun h => let (a, h') := m h in k a h'.

Declare Scope call_scope.
Delimit Scope call_scope with call.
Notation "x <- m ;; k" := (bind m (fun x => k))
  (at level 20, m at level 99, k at level 200, only parsing) : call_scope.
Notation "m ;; k" := (bind m (fun _ => k))
  (at level 100, k at level 200, only parsing, right associativity) : call_scope.

(** Sequencing after a statement that may throw: an exception ends the
    whole computation, nothing after it is run. *)
Definition try_bind {A B} (m : M (Outcome A)) (k : A -> M (Outcome B))
  : M (Outcome B) :=
  bind m (fun r => match r with
                   | Returned a => k a
                   | Thrown e => ret (Thrown e)
                   end).

Notation "x <-! m ;; k" := (try_bind m (fun x => k))
  (at level 20, m at level 99, k at level 200, only parsing) : call_scope.
Local Open Scope call_scope.

(** A call that returns nothing the program looks at. *)
Definition emit (e : Event) : M unit := fun h => (tt, h ++ [e]).

(** A call whose result [a] is computed from the history before it. *)
Definition ask {A} (answer : History -> A) (e : A -> Event) : M A :=
  fun h => let a := answer h in (a, h ++ [e a]).

Section Calls.
Context (w : World).

Definition cout (line : string) : M unit := emit (Ev_cout line).
Definition cerr (line : string) : M unit := emit (Ev_cerr line).

Definition ifstream_open (path : string) (binary : bool) : M ifstream :=
  ask (fun _ => w_file w path)
      (fun st => Ev_ifstream_open path binary (bool_decide (is_Some st))).

Definition ifstream_get_all (st : ifstream) : M string :=
  ask (fun _ => istreambuf_all st) Ev_ifstream_get_all.

(** [stream.read(buffer.data(), count)]: the buffer after the call. *)
Definition ifstream_read (st : ifstream) (buf : list byte) (count : Z)
  : M (list byte) :=
  r <- ask (λ _, istream_read st buf (Z.to_nat count))
           (λ r, Ev_ifstream_read count r.1.2) ;;
  ret r.1.1.

Definition ifstream_close : M unit := emit Ev_ifstream_close.

Definition glCreateShader (type : GLenum) : M GLuint :=
  ask (fun h => w_glCreateShader w h type) (Ev_glCreateShader type).

Definition glShaderSource (shader : GLuint) (count : GLsizei) (source : string)
  : M unit := emit (Ev_glShaderSource shader count source).

Definition glCompileShader (shader : GLuint) : M unit :=
  emit (Ev_glCompileShader shader).

(** [glGetShaderiv(shader, pname, &var)] with [var] holding [cur]: the
    value of [var] after the call. *)
Definition glGetShaderiv (shader : GLuint) (pname : GLenum) (cur : GLint)
  : M GLint :=
  ask (fun h => default cur (w_glGetShaderiv w h shader pname))
      (Ev_glGetShaderiv shader pname).

(** [glGetShaderInfoLog(shader, bufSize, NULL, &buf[0])]: [buf] after. *)
Definition glGetShaderInfoLog (shader : GLuint) (bufSize : GLsizei) (buf : string)
  : M string :=
  ask (fun h => gl_store_info_log bufSize (w_glGetShaderInfoLog w h shader) buf)
      (Ev_glGetShaderInfoLog shader bufSize).

Definition glCreateProgram : M GLuint :=
  ask (w_glCreateProgram w) Ev_glCreateProgram.

Definition glAttachShader (program shader : GLuint) : M unit :=
  emit (Ev_glAttachShader program shader).

Definition glBindFragDataLocation (program color : GLuint) (name : string)
  : M unit := emit (Ev_glBindFragDataLocation program color name).

Definition glLinkProgram (program : GLuint) : M unit :=
  emit (Ev_glLinkProgram program).

Definition glGetProgramiv (program : GLuint) (pname : GLenum) (cur : GLint)
  : M GLint :=
  ask (fun h => default cur (w_glGetProgramiv w h program pname))
      (Ev_glGetProgramiv program pname).

Definition glGetProgramInfoLog (program : GLuint) (bufSize : GLsizei) (buf : string)
  : M string :=
  ask (fun h => gl_store_info_log bufSize (w_glGetProgramInfoLog w h program) buf)
      (Ev_glGetProgramInfoLog program bufSize).

Definition glDeleteShader (shader : GLuint) : M unit :=
  emit (Ev_glDeleteShader shader).

Definition glUseProgram (program : GLuint) : M unit :=
  emit (Ev_glUseProgram program).

(** ** [ShaderProgram]

    The locals [result] and [info_length] are shared by the three checks;
    each check hands their current values on to the next.  The buffer of
    the vertex log is sized by [(unsigned int)info_length], the two
    others by [(unsigned long)info_length]. *)
Definition ShaderProgram (vertex_shader_file fragment_shader_file : string)
  : M (Outcome GLuint) :=
  (* Create shaders *)
  vertex_shader_id <- glCreateShader GL_VERTEX_SHADER ;;
  fragment_shader_id <- glCreateShader GL_FRAGMENT_SHADER ;;
  let result := GL_FALSE in
  let info_length := 0 in
  (* Load shader code *)
  vertex_shader_stream <- ifstream_open vertex_shader_file false ;;
  vertex_shader_code <- ifstream_get_all vertex_shader_stream ;;
  fragment_shader_stream <- ifstream_open fragment_shader_file false ;;
  fragment_shader_code <- ifstream_get_all fragment_shader_stream ;;
  (* Compile vertex shader *)
  cout "Compiling Vertex Shader ..." ;;
  glShaderSource vertex_shader_id 1 (c_str vertex_shader_code) ;;
  glCompileShader vertex_shader_id ;;
  (* Check vertex shader log *)
  result <- glGetShaderiv vertex_shader_id GL_COMPILE_STATUS result ;;
  info_length <-!
    (if result =? GL_FALSE then
       info_length <- glGetShaderiv vertex_shader_id GL_INFO_LOG_LENGTH info_length ;;
       vertex_shader_log <-! ret (std_string (u32 info_length) " ") ;;
       vertex_shader_log <-
         glGetShaderInfoLog vertex_shader_id info_length vertex_shader_log ;;
       cout vertex_shader_log ;;
       ret (Returned info_length)
     else ret (Returned info_length)) ;;
  (* Compile fragment shader *)
  cout "Compiling Fragment Shader ..." ;;
  glShaderSource fragment_shader_id 1 (c_str fragment_shader_code) ;;
  glCompileShader fragment_shader_id ;;
  (* Check fragment shader log *)
  result <- glGetShaderiv fragment_shader_id GL_COMPILE_STATUS result ;;
  info_length <-!
    (if result =? GL_FALSE then
       info_length <- glGetShaderiv fragment_shader_id GL_INFO_LOG_LENGTH info_length ;;
       fragment_shader_log <-! ret (std_string (u64 info_length) " ") ;;
       fragment_shader_log <-
         glGetShaderInfoLog fragment_shader_id info_length fragment_shader_log ;;
       cout fragment_shader_log ;;
       ret (Returned info_length)
     else ret (Returned info_length)) ;;
  (* Create and link the program *)
  cout "Linking Shader Program ..." ;;
  program_id <- glCreateProgram ;;
  glAttachShader program_id vertex_shader_id ;;
  glAttachShader program_id fragment_shader_id ;;
  glBindFragDataLocation program_id 0 "FragmentColor" ;;
  glLinkProgram program_id ;;
  (* Check program log *)
  result <- glGetProgramiv program_id GL_LINK_STATUS result ;;
  _ <-!
    (if result =? GL_FALSE then
       info_length <- glGetProgramiv program_id GL_INFO_LOG_LENGTH info_length ;;
       program_log <-! ret (std_string (u64 info_length) " ") ;;
       program_log <- glGetProgramInfoLog program_id info_length program_log ;;
       cout program_log ;;
       ret (Returned tt)
     else ret (Returned tt)) ;;
  glDeleteShader vertex_shader_id ;;
  glDeleteShader fragment_shader_id ;;
  ret (Returned program_id).

(** ** [InitializeGeometry] *)

Definition glGenVertexArrays (n : GLsizei) : M GLuint :=
  ask (w_glGenVertexArrays w) (Ev_glGenVertexArrays n).

Definition glBindVertexArray (array : GLuint) : M unit :=
  emit (Ev_glBindVertexArray array).

Definition glGenBuffers (n : GLsizei) : M GLuint :=
  ask (w_glGenBuffers w) (Ev_glGenBuffers n).

Definition glBindBuffer (target : GLenum) (buffer : GLuint) : M unit :=
  emit (Ev_glBindBuffer target buffer).

Definition glBufferData (target : GLenum) (size : Z) (data : list GLfloat)
    (usage : GLenum) : M unit :=
  emit (Ev_glBufferData target size data usage).

Definition glGetAttribLocation (program : GLuint) (name : string) : M GLint :=
  ask (fun h => w_glGetAttribLocation w h program name)
      (Ev_glGetAttribLocation program name).

Definition glVertexAttribPointer (index : GLuint) (size : GLint) (type : GLenum)
    (normalized : GLboolean) (stride : GLsizei) (pointer : Z) : M unit :=
  emit (Ev_glVertexAttribPointer index size type normalized stride pointer).

Definition glEnableVertexAttribArray (index : GLuint) : M unit :=
  emit (Ev_glEnableVertexAttribArray index).

(** The locations come back as [GLint] and are passed on where a [GLuint]
    is expected, hence the [u32]. *)
Definition InitializeGeometry (program_id : GLuint) : M unit :=
  (* Generate a vertex array object *)
  vao <- glGenVertexArrays 1 ;;
  glBindVertexArray vao ;;
  (* Setup geometry *)
  let vertex_buffer : list GLfloat :=
    [ (* x, y *)
      1.0; 1.0;
      -1.0; 1.0;
      1.0; -1.0;
      -1.0; -1.0 ]%Q in
  (* Generate a vertex buffer object *)
  vbo <- glGenBuffers 1 ;;
  glBindBuffer GL_ARRAY_BUFFER vbo ;;
  glBufferData GL_ARRAY_BUFFER
    (u64 (Z.of_nat (length vertex_buffer) * sizeof_GLfloat))
    vertex_buffer GL_STATIC_DRAW ;;
  (* Setup vertex array lookup *)
  position_attrib <- glGetAttribLocation program_id "Position" ;;
  glVertexAttribPointer (u32 position_attrib) 2 GL_FLOAT GL_FALSE 0 0 ;;
  glEnableVertexAttribArray (u32 position_attrib) ;;
  (* Generate another vertex buffer object for texture coordinates *)
  let texcoord_buffer : list GLfloat :=
    [ (* u, v *)
      1.0; 0.0;
      0.0; 0.0;
      1.0; 1.0;
      0.0; 1.0 ]%Q in
  tbo <- glGenBuffers 1 ;;
  glBindBuffer GL_ARRAY_BUFFER tbo ;;
  glBufferData GL_ARRAY_BUFFER
    (u64 (Z.of_nat (length texcoord_buffer) * sizeof_GLfloat))
    texcoord_buffer GL_STATIC_DRAW ;;
  texcoord_attrib <- glGetAttribLocation program_id "TexCoord" ;;
  glVertexAttribPointer (u32 texcoord_attrib) 2 GL_FLOAT GL_FALSE 0 0 ;;
  glEnableVertexAttribArray (u32 texcoord_attrib).

(** ** [LoadImage] *)

Definition glGenTextures (n : GLsizei) : M GLuint :=
  ask (w_glGenTextures w) (Ev_glGenTextures n).

Definition glBindTexture (target : GLenum) (texture : GLuint) : M unit :=
  emit (Ev_glBindTexture target texture).

Definition glTexParameteri (target pname : GLenum) (param : GLint) : M unit :=
  emit (Ev_glTexParameteri target pname param).

Definition glTexImage2D (target : GLenum) (level internalformat : GLint)
    (width height : GLsizei) (border : GLint) (format type : GLenum)
    (pixels : list byte) : M unit :=
  emit (Ev_glTexImage2D target level internalformat width height border
          format type pixels).

(** [width] and [height] are [unsigned int] parameters: the arguments are
    converted on entry, [width*height*3] is computed in [unsigned int], and
    [glTexImage2D] receives the two as [GLsizei]. *)
Definition LoadImage (image_file : string) (width height : Z) : M GLuint :=
  let width := u32 width in
  let height := u32 height in
  (* Create new texture object *)
  texture_id <- glGenTextures 1 ;;
  glBindTexture GL_TEXTURE_2D texture_id ;;
  (* Set mipmaps *)
  glTexParameteri GL_TEXTURE_2D GL_TEXTURE_MAG_FILTER GL_LINEAR ;;
  glTexParameteri GL_TEXTURE_2D GL_TEXTURE_MIN_FILTER GL_LINEAR ;;
  (* Read raw data *)
  image_stream <- ifstream_open image_file true ;;
  (* Setup buffer for pixels (r,g,b bytes) *)
  let buffer := std_vector_char (u32 (u32 (width * height) * 3)) in
  buffer <- ifstream_read image_stream buffer (Z.of_nat (length buffer)) ;;
  ifstream_close ;;
  glTexImage2D GL_TEXTURE_2D 0 GL_RGB (i32 width) (i32 height) 0
    GL_RGB GL_UNSIGNED_BYTE buffer ;;
  ret texture_id.

(** ** [main] *)

Definition glfwInit : M Z := ask (w_glfwInit w) Ev_glfwInit.

Definition glfwWindowHint (hint value : Z) : M unit :=
  emit (Ev_glfwWindowHint hint value).

Definition glfwCreateWindow (width height : Z) (title : string)
    (monitor share : Z) : M GLFWwindow :=
  ask (w_glfwCreateWindow w)
      (Ev_glfwCreateWindow width height title monitor share).

Definition glfwMakeContextCurrent (window : GLFWwindow) : M unit :=
  emit (Ev_glfwMakeContextCurrent window).

Definition glfwTerminate : M unit := emit Ev_glfwTerminate.

(** The assignment [glewExperimental = value]. *)
Definition glewExperimental (value : GLboolean) : M unit :=
  emit (Ev_glewExperimental value).

Definition glewInit : M Z := ask (w_glewInit w) Ev_glewInit.

Definition glewIsSupported (name : string) : M GLboolean :=
  ask (fun h => w_glewIsSupported w h name) (Ev_glewIsSupported name).

Definition glGetUniformLocation (program : GLuint) (name : string) : M GLint :=
  ask (fun h => w_glGetUniformLocation w h program name)
      (Ev_glGetUniformLocation program name).

Definition glUniform1i (location v0 : GLint) : M unit :=
  emit (Ev_glUniform1i location v0).

Definition glActiveTexture (texture : GLenum) : M unit :=
  emit (Ev_glActiveTexture texture).

Definition glfwWindowShouldClose (window : GLFWwindow) : M Z :=
  ask (fun h => w_glfwWindowShouldClose w h window)
      (Ev_glfwWindowShouldClose window).

Definition glClearColor (red green blue alpha : GLfloat) : M unit :=
  emit (Ev_glClearColor red green blue alpha).

Definition glClear (mask : GLbitfield) : M unit := emit (Ev_glClear mask).

Definition glDrawArrays (mode : GLenum) (first : GLint) (count : GLsizei)
  : M unit := emit (Ev_glDrawArrays mode first count).

Definition glfwSwapBuffers (window : GLFWwindow) : M unit :=
  emit (Ev_glfwSwapBuffers window).

Definition glfwPollEvents : M unit := emit Ev_glfwPollEvents.

(** The body of [while (!glfwWindowShouldClose(window)) { ... }]. *)
Definition render_frame (window : GLFWwindow) : M unit :=
  (* Set gray background *)
  glClearColor 0.5%Q 0.5%Q 0.5%Q 0%Q ;;
  (* Clear depth and color buffers *)
  glClear (Z.lor GL_COLOR_BUFFER_BIT GL_DEPTH_BUFFER_BIT) ;;
  (* Draw triangles using the program *)
  glDrawArrays GL_TRIANGLE_STRIP 0 4 ;;
  (* Display result *)
  glfwSwapBuffers window ;;
  glfwPollEvents.

(** The main execution loop.  [fuel] bounds how many times the loop
    condition is evaluated; the result is [true] when the loop was left and
    [false] when the fuel ran out with the loop still running. *)
Fixpoint render_loop (fuel : nat) (window : GLFWwindow) : M bool :=
  match fuel with
  | O => ret false
  | S fuel' =>
      should_close <- glfwWindowShouldClose window ;;
      if should_close =? 0 then
        render_frame window ;;
        render_loop fuel' window
      else ret true
  end.

(** [main]: [Returned] with the exit code; [Thrown] when an exception
    leaves [main], which ends the process through [std::terminate]
    without an exit code of [main]; [None] when the fuel of the render
    loop ran out before the loop was left. *)
Definition main (fuel : nat) : M (option (Outcome Z)) :=
  (* Initialize GLFW *)
  init <- glfwInit ;;
  if init =? 0 then
    cerr "Failed to initialize GLFW!" ;;
    ret (Some (Returned EXIT_FAILURE))
  else
    (* Setup OpenGL context *)
    glfwWindowHint GLFW_SAMPLES 4 ;;
    glfwWindowHint GLFW_CONTEXT_VERSION_MAJOR 3 ;;
    glfwWindowHint GLFW_CONTEXT_VERSION_MINOR 3 ;;
    glfwWindowHint GLFW_OPENGL_FORWARD_COMPAT GL_TRUE ;;
    glfwWindowHint GLFW_OPENGL_PROFILE GLFW_OPENGL_CORE_PROFILE ;;
    (* Try to create a window *)
    window <- glfwCreateWindow (i32 SIZE) (i32 SIZE) "OpenGL" NULL NULL ;;
    if window =? NULL then
      cerr "Failed to open GLFW window, your graphics card is probably only capable of OpenGL 2.1" ;;
      glfwTerminate ;;
      ret (Some (Returned EXIT_FAILURE))
    else
      (* Finalize window setup *)
      glfwMakeContextCurrent window ;;
      (* Initialize GLEW *)
      glewExperimental GL_TRUE ;;
      glewInit ;;
      supported <- glewIsSupported "GL_VERSION_3_3" ;;
      if supported =? 0 then
        cerr "Failed to initialize GLEW with OpenGL 3.3!" ;;
        glfwTerminate ;;
        ret (Some (Returned EXIT_FAILURE))
      else
        (* Load shaders *)
        shader_program <- ShaderProgram "gl_texture.vert" "gl_texture.frag" ;;
        match shader_program with
        | Thrown e => ret (Some (Thrown e))
        | Returned program_id =>
            glUseProgram program_id ;;
            InitializeGeometry program_id ;;
            (* Load and bind texture *)
            texture_id <- LoadImage "lena.rgb" SIZE SIZE ;;
            texture_attrib <- glGetUniformLocation program_id "Texture" ;;
            glUniform1i texture_attrib 0 ;;
            glActiveTexture (GL_TEXTURE0 + 0) ;;
            glBindTexture GL_TEXTURE_2D texture_id ;;
            (* Main execution loop *)
            left <- render_loop fuel window ;;
            if left then
              (* Clean up *)
              glfwTerminate ;;
              ret (Some (Returned EXIT_SUCCESS))
            else ret None
        end.

End Calls.

(** ** Reading histories *)

(** The objects of the OpenGL context that a history has created, or
    reserved a name for, and not deleted: what the application still holds.
    A creation that returns the name 0 created nothing. *)
Inductive GLobject : Type :=
  | ShaderObject (name : GLuint)
  | ProgramObject (name : GLuint)
  | VertexArrayObject (name : GLuint)
  | BufferObject (name : GLuint)
  | TextureObject (name : GLuint).

#[global] Instance GLobject_eq_dec : EqDecision GLobject.
Proof. solve_decision. Defined.

#[global] Instance GLobject_countable : Countable GLobject.
Proof.
  refine (inj_countable'
    (λ o, match o with
          | ShaderObject n => (0%nat, n)
          | ProgramObject n => (1%nat, n)
          | VertexArrayObject n => (2%nat, n)
          | BufferObject n => (3%nat, n)
          | TextureObject n => (4%nat, n)
          end)
    (λ p, match p with
          | (0%nat, n) => ShaderObject n
          | (1%nat, n) => ProgramObject n
          | (2%nat, n) => VertexArrayObject n
          | (3%nat, n) => BufferObject n
          | (_, n) => TextureObject n
          end) _).
  by intros [].
Defined.



(** What was written to the diagnostic stream [std::cerr]. *)
Definition diagnostics (tr : History) : list string :=
  omap (λ e, match e with Ev_cerr line => Some line | _ => None end) tr.

(** What was written to [std::cout]. *)
Definition printed (tr : History) : list string :=
  omap (λ e, match e with Ev_cout line => Some line | _ => None end) tr.

(** The reads from files: the byte count asked for, and the bytes obtained. *)
Definition read_requests (tr : History) : list (Z * list byte) :=
  omap (λ e, match e with
             | Ev_ifstream_read count got => Some (count, got)
             | _ => None
             end) tr.

(** The pixel buffers handed to [glTexImage2D]. *)
Definition uploaded_pixels (tr : History) : list (list byte) :=
  omap (λ e, match e with
             | Ev_glTexImage2D _ _ _ _ _ _ _ _ pixels => Some pixels
             | _ => None
             end) tr.

(** The draw calls, as (mode, first, count). *)
Definition draw_calls (tr : History) : list (GLenum * GLint * GLsizei) :=
  omap (λ e, match e with
             | Ev_glDrawArrays mode first count => Some (mode, first, count)
             | _ => None
             end) tr.

(** How many times the window answered that it is not to be closed: the
    number of iterations of the render loop that were begun. *)
Definition frames_begun (tr : History) : nat :=
  length (List.filter
            (λ e, match e with
                  | Ev_glfwWindowShouldClose _ ret => ret =? 0
                  | _ => false
                  end) tr).

(** The name of the library function behind a completed call: the control
    flow of a run, without the data that went through it. *)
Definition call_name (e : Event) : string :=
  match e with
  | Ev_cout _ => "std::cout"
  | Ev_cerr _ => "std::cerr"
  | Ev_ifstream_open _ _ _ => "std::ifstream::ifstream"
  | Ev_ifstream_get_all _ => "std::istreambuf_iterator"
  | Ev_ifstream_read _ _ => "std::ifstream::read"
  | Ev_ifstream_close => "std::ifstream::close"
  | Ev_glCreateShader _ _ => "glCreateShader"
  | Ev_glShaderSource _ _ _ => "glShaderSource"
  | Ev_glCompileShader _ => "glCompileShader"
  | Ev_glGetShaderiv _ _ _ => "glGetShaderiv"
  | Ev_glGetShaderInfoLog _ _ _ => "glGetShaderInfoLog"
  | Ev_glCreateProgram _ => "glCreateProgram"
  | Ev_glAttachShader _ _ => "glAttachShader"
  | Ev_glBindFragDataLocation _ _ _ => "glBindFragDataLocation"
  | Ev_glLinkProgram _ => "glLinkProgram"
  | Ev_glGetProgramiv _ _ _ => "glGetProgramiv"
  | Ev_glGetProgramInfoLog _ _ _ => "glGetProgramInfoLog"
  | Ev_glDeleteShader _ => "glDeleteShader"
  | Ev_glUseProgram _ => "glUseProgram"
  | Ev_glGenVertexArrays _ _ => "glGenVertexArrays"
  | Ev_glBindVertexArray _ => "glBindVertexArray"
  | Ev_glGenBuffers _ _ => "glGenBuffers"
  | Ev_glBindBuffer _ _ => "glBindBuffer"
  | Ev_glBufferData _ _ _ _ => "glBufferData"
  | Ev_glGetAttribLocation _ _ _ => "glGetAttribLocation"
  | Ev_glVertexAttribPointer _ _ _ _ _ _ => "glVertexAttribPointer"
  | Ev_glEnableVertexAttribArray _ => "glEnableVertexAttribArray"
  | Ev_glGenTextures _ _ => "glGenTextures"
  | Ev_glBindTexture _ _ => "glBindTexture"
  | Ev_glTexParameteri _ _ _ => "glTexParameteri"
  | Ev_glTexImage2D _ _ _ _ _ _ _ _ _ => "glTexImage2D"
  | Ev_glGetUniformLocation _ _ _ => "glGetUniformLocation"
  | Ev_glUniform1i _ _ => "glUniform1i"
  | Ev_glActiveTexture _ => "glActiveTexture"
  | Ev_glClearColor _ _ _ _ => "glClearColor"
  | Ev_glClear _ => "glClear"
  | Ev_glDrawArrays _ _ _ => "glDrawArrays"
  | Ev_glfwInit _ => "glfwInit"
  | Ev_glfwWindowHint _ _ => "glfwWindowHint"
  | Ev_glfwCreateWindow _ _ _ _ _ _ => "glfwCreateWindow"
  | Ev_glfwMakeContextCurrent _ => "glfwMakeContextCurrent"
  | Ev_glfwTerminate => "glfwTerminate"
  | Ev_glewExperimental _ => "glewExperimental"
  | Ev_glewInit _ => "glewInit"
  | Ev_glewIsSupported _ _ => "glewIsSupported"
  | Ev_glfwWindowShouldClose _ _ => "glfwWindowShouldClose"
  | Ev_glfwSwapBuffers _ => "glfwSwapBuffers"
  | Ev_glfwPollEvents => "glfwPollEvents"
  end.

(** Consecutive pairs of a flat attribute array with two components per
    vertex, as [glVertexAttribPointer(_, 2, GL_FLOAT, _, 0, 0)] reads it. *)
Fixpoint vertices2 (data : list GLfloat) : list (GLfloat * GLfloat) :=
  match data with
  | x :: y :: rest => (x, y) :: vertices2 rest
  | _ => []
  end.

(** ** The shape of a run *)

(** What came back from the calls of one run of [ShaderProgram]. *)
Record ShaderAnswers : Type := {
  sa_vertex_shader_id : GLuint;
  sa_fragment_shader_id : GLuint;
  sa_vertex_status : GLint;
  sa_vertex_log_length : GLint;
  sa_vertex_log : string;
  sa_fragment_status : GLint;
  sa_fragment_log_length : GLint;
  sa_fragment_log : string;
  sa_program_id : GLuint;
  sa_link_status : GLint;
  sa_link_log_length : GLint;
  sa_program_log : string
}.

(** The calls that follow a status query: for a status of [GL_FALSE] the
    length of the log is asked for, the log is fetched and printed; for any
    other status nothing is done. *)
Definition report_events (query : GLenum → GLint → Event)
    (fetch : GLsizei → string → Event) (status len : GLint) (log : string)
  : History :=
  if status =? GL_FALSE
  then [query GL_INFO_LOG_LENGTH len; fetch len log; Ev_cout log]
  else [].

(** The calls of a run of [ShaderProgram] on two files whose streams are
    [vfile] and [ffile], as a function of what came back. *)
Definition ShaderProgram_events (vertex_shader_file fragment_shader_file : string)
    (vfile ffile : ifstream) (a : ShaderAnswers) : History :=
  let vs := sa_vertex_shader_id a in
  let fs := sa_fragment_shader_id a in
  let prog := sa_program_id a in
  [ Ev_glCreateShader GL_VERTEX_SHADER vs;
    Ev_glCreateShader GL_FRAGMENT_SHADER fs;
    Ev_ifstream_open vertex_shader_file false (bool_decide (is_Some vfile));
    Ev_ifstream_get_all (istreambuf_all vfile);
    Ev_ifstream_open fragment_shader_file false (bool_decide (is_Some ffile));
    Ev_ifstream_get_all (istreambuf_all ffile);
    Ev_cout "Compiling Vertex Shader ...";
    Ev_glShaderSource vs 1 (c_str (istreambuf_all vfile));
    Ev_glCompileShader vs;
    Ev_glGetShaderiv vs GL_COMPILE_STATUS (sa_vertex_status a) ]
  ++ report_events (Ev_glGetShaderiv vs) (Ev_glGetShaderInfoLog vs)
       (sa_vertex_status a) (sa_vertex_log_length a) (sa_vertex_log a)
  ++ [ Ev_cout "Compiling Fragment Shader ...";
       Ev_glShaderSource fs 1 (c_str (istreambuf_all ffile));
       Ev_glCompileShader fs;
       Ev_glGetShaderiv fs GL_COMPILE_STATUS (sa_fragment_status a) ]
  ++ report_events (Ev_glGetShaderiv fs) (Ev_glGetShaderInfoLog fs)
       (sa_fragment_status a) (sa_fragment_log_length a) (sa_fragment_log a)
  ++ [ Ev_cout "Linking Shader Program ...";
       Ev_glCreateProgram prog;
       Ev_glAttachShader prog vs;
       Ev_glAttachShader prog fs;
       Ev_glBindFragDataLocation prog 0 "FragmentColor";
       Ev_glLinkProgram prog;
       Ev_glGetProgramiv prog GL_LINK_STATUS (sa_link_status a) ]
  ++ report_events (Ev_glGetProgramiv prog) (Ev_glGetProgramInfoLog prog)
       (sa_link_status a) (sa_link_log_length a) (sa_program_log a)
  ++ [ Ev_glDeleteShader vs; Ev_glDeleteShader fs ].

(** Whether the log buffer of a check cannot be constructed: the status
    is [GL_FALSE] and the length of the log, converted to [unsigned long],
    is more than a [std::string] can hold. *)
Definition log_too_long (status len : GLint) : bool :=
  (status =? GL_FALSE) && (std_string_max_size <? u64 len).

(** Whether a run of [ShaderProgram] with these answers is ended by
    [std::length_error]: at the buffer of the fragment log or at the buffer
    of the program log. *)
Definition ShaderProgram_throws (a : ShaderAnswers) : bool :=
  log_too_long (sa_fragment_status a) (sa_fragment_log_length a)
  || log_too_long (sa_link_status a) (sa_link_log_length a).

(** The calls of a run of [ShaderProgram] that is ended by the exception:
    the last call is the query of the length of the log whose buffer
    cannot be constructed. *)
Definition ShaderProgram_thrown_events
    (vertex_shader_file fragment_shader_file : string)
    (vfile ffile : ifstream) (a : ShaderAnswers) : History :=
  let vs := sa_vertex_shader_id a in
  let fs := sa_fragment_shader_id a in
  let prog := sa_program_id a in
  [ Ev_glCreateShader GL_VERTEX_SHADER vs;
    Ev_glCreateShader GL_FRAGMENT_SHADER fs;
    Ev_ifstream_open vertex_shader_file false (bool_decide (is_Some vfile));
    Ev_ifstream_get_all (istreambuf_all vfile);
    Ev_ifstream_open fragment_shader_file false (bool_decide (is_Some ffile));
    Ev_ifstream_get_all (istreambuf_all ffile);
    Ev_cout "Compiling Vertex Shader ...";
    Ev_glShaderSource vs 1 (c_str (istreambuf_all vfile));
    Ev_glCompileShader vs;
    Ev_glGetShaderiv vs GL_COMPILE_STATUS (sa_vertex_status a) ]
  ++ report_events (Ev_glGetShaderiv vs) (Ev_glGetShaderInfoLog vs)
       (sa_vertex_status a) (sa_vertex_log_length a) (sa_vertex_log a)
  ++ [ Ev_cout "Compiling Fragment Shader ...";
       Ev_glShaderSource fs 1 (c_str (istreambuf_all ffile));
       Ev_glCompileShader fs;
       Ev_glGetShaderiv fs GL_COMPILE_STATUS (sa_fragment_status a) ]
  ++ (if log_too_long (sa_fragment_status a) (sa_fragment_log_length a)
      then [ Ev_glGetShaderiv fs GL_INFO_LOG_LENGTH (sa_fragment_log_length a) ]
      else
        report_events (Ev_glGetShaderiv fs) (Ev_glGetShaderInfoLog fs)
          (sa_fragment_status a) (sa_fragment_log_length a) (sa_fragment_log a)
        ++ [ Ev_cout "Linking Shader Program ...";
             Ev_glCreateProgram prog;
             Ev_glAttachShader prog vs;
             Ev_glAttachShader prog fs;
             Ev_glBindFragDataLocation prog 0 "FragmentColor";
             Ev_glLinkProgram prog;
             Ev_glGetProgramiv prog GL_LINK_STATUS (sa_link_status a);
             Ev_glGetProgramiv prog GL_INFO_LOG_LENGTH (sa_link_log_length a) ]).

(** How a run of [ShaderProgram] with these answers ends, and its calls. *)
Definition ShaderProgram_outcome (a : ShaderAnswers) : Outcome GLuint :=
  if ShaderProgram_throws a then Thrown std_length_error
  else Returned (sa_program_id a).

Definition ShaderProgram_trace (vertex_shader_file fragment_shader_file : string)
    (vfile ffile : ifstream) (a : ShaderAnswers) : History :=
  if ShaderProgram_throws a
  then ShaderProgram_thrown_events vertex_shader_file fragment_shader_file
         vfile ffile a
  else ShaderProgram_events vertex_shader_file fragment_shader_file
         vfile ffile a.




(** A log length the program can hold in [info_length]: the initial 0, or
    what the driver wrote in answer to some query of [GL_INFO_LOG_LENGTH]. *)
Definition held_length (w : World) (n : GLint) : Prop :=
  n = 0 ∨
  (∃ h shader, w_glGetShaderiv w h shader GL_INFO_LOG_LENGTH = Some n) ∨
  (∃ h program, w_glGetProgramiv w h program GL_INFO_LOG_LENGTH = Some n).

(** A driver that reports every log length as a non-negative [GLint], as
    OpenGL has it. *)
Definition log_lengths_in_range (w : World) : Prop :=
  (∀ h shader n,
     w_glGetShaderiv w h shader GL_INFO_LOG_LENGTH = Some n → 0 ≤ n < 2 ^ 31) ∧
  (∀ h program n,
     w_glGetProgramiv w h program GL_INFO_LOG_LENGTH = Some n → 0 ≤ n < 2 ^ 31).

(** Every query of a compile status that came back [GL_FALSE] is followed
    at once by the query of the length of that shader's log, the fetch of
    the log and its printing. *)
Definition compile_failures_reported (tr : History) : Prop :=
  ∀ pre shader post,
    tr = pre ++ Ev_glGetShaderiv shader GL_COMPILE_STATUS GL_FALSE :: post →
    ∃ len log post',
      post = Ev_glGetShaderiv shader GL_INFO_LOG_LENGTH len
             :: Ev_glGetShaderInfoLog shader len log
             :: Ev_cout log :: post'.

(** The same for a link status. *)
Definition link_failures_reported (tr : History) : Prop :=
  ∀ pre program post,
    tr = pre ++ Ev_glGetProgramiv program GL_LINK_STATUS GL_FALSE :: post →
    ∃ len log post',
      post = Ev_glGetProgramiv program GL_INFO_LOG_LENGTH len
             :: Ev_glGetProgramInfoLog program len log
             :: Ev_cout log :: post'.

(** Both stages are compiled and their compile status is read, a program is
    created from them and linked, its link status is read, and both shaders
    are deleted, in this order, whatever happens in between. *)
Definition compiles_links_and_cleans_up (program_id : GLuint) (tr : History) : Prop :=
  ∃ vs fs vstatus fstatus status t1 t2 t3 t4,
    tr = t1 ++ Ev_glCompileShader vs
         :: Ev_glGetShaderiv vs GL_COMPILE_STATUS vstatus
         :: t2 ++ Ev_glCompileShader fs
         :: Ev_glGetShaderiv fs GL_COMPILE_STATUS fstatus
         :: t3 ++ [ Ev_glCreateProgram program_id;
                    Ev_glAttachShader program_id vs;
                    Ev_glAttachShader program_id fs;
                    Ev_glBindFragDataLocation program_id 0 "FragmentColor";
                    Ev_glLinkProgram program_id;
                    Ev_glGetProgramiv program_id GL_LINK_STATUS status ]
         ++ t4 ++ [ Ev_glDeleteShader vs; Ev_glDeleteShader fs ].

(** A stage of the build was seen to fail: a compile status or a link
    status came back [GL_FALSE]. *)
Definition build_failed (tr : History) : Prop :=
  (∃ shader, Ev_glGetShaderiv shader GL_COMPILE_STATUS GL_FALSE ∈ tr) ∨
  (∃ program, Ev_glGetProgramiv program GL_LINK_STATUS GL_FALSE ∈ tr).

(** A program handle that is zero or invalid: no program was created, or
    the program was seen not to link, or a shader that was seen not to
    compile is attached to it (such a program cannot link). *)
Definition zero_or_invalid (program_id : GLuint) (tr : History) : Prop :=
  program_id = 0 ∨
  Ev_glGetProgramiv program_id GL_LINK_STATUS GL_FALSE ∈ tr ∨
  (∃ shader,
     Ev_glGetShaderiv shader GL_COMPILE_STATUS GL_FALSE ∈ tr ∧
     Ev_glAttachShader program_id shader ∈ tr).

(** The positions and the texture coordinates of the quad. *)
Definition quad_positions : list GLfloat :=
  [ 1.0; 1.0;  -1.0; 1.0;  1.0; -1.0;  -1.0; -1.0 ]%Q.

Definition quad_texcoords : list GLfloat :=
  [ 1.0; 0.0;  0.0; 0.0;  1.0; 1.0;  0.0; 1.0 ]%Q.

(** The calls of a run of [InitializeGeometry], as a function of the names
    and locations that came back. *)
Definition InitializeGeometry_events (program_id : GLuint)
    (vao vbo : GLuint) (position_attrib : GLint)
    (tbo : GLuint) (texcoord_attrib : GLint) : History :=
  [ Ev_glGenVertexArrays 1 vao;
    Ev_glBindVertexArray vao;
    Ev_glGenBuffers 1 vbo;
    Ev_glBindBuffer GL_ARRAY_BUFFER vbo;
    Ev_glBufferData GL_ARRAY_BUFFER 32 quad_positions GL_STATIC_DRAW;
    Ev_glGetAttribLocation program_id "Position" position_attrib;
    Ev_glVertexAttribPointer (u32 position_attrib) 2 GL_FLOAT GL_FALSE 0 0;
    Ev_glEnableVertexAttribArray (u32 position_attrib);
    Ev_glGenBuffers 1 tbo;
    Ev_glBindBuffer GL_ARRAY_BUFFER tbo;
    Ev_glBufferData GL_ARRAY_BUFFER 32 quad_texcoords GL_STATIC_DRAW;
    Ev_glGetAttribLocation program_id "TexCoord" texcoord_attrib;
    Ev_glVertexAttribPointer (u32 texcoord_attrib) 2 GL_FLOAT GL_FALSE 0 0;
    Ev_glEnableVertexAttribArray (u32 texcoord_attrib) ].

(** The calls of a run of [LoadImage] that asks the file for [size] bytes,
    obtains [got] and uploads [pixels]. *)
Definition LoadImage_events (image_file : string) (width height : Z)
    (size : Z) (texture_id : GLuint) (is_open : bool)
    (got pixels : list byte) : History :=
  [ Ev_glGenTextures 1 texture_id;
    Ev_glBindTexture GL_TEXTURE_2D texture_id;
    Ev_glTexParameteri GL_TEXTURE_2D GL_TEXTURE_MAG_FILTER GL_LINEAR;
    Ev_glTexParameteri GL_TEXTURE_2D GL_TEXTURE_MIN_FILTER GL_LINEAR;
    Ev_ifstream_open image_file true is_open;
    Ev_ifstream_read size got;
    Ev_ifstream_close;
    Ev_glTexImage2D GL_TEXTURE_2D 0 GL_RGB (i32 (u32 width)) (i32 (u32 height)) 0
      GL_RGB GL_UNSIGNED_BYTE pixels ].

(** The bytes a read of [size] bytes obtains from a file. *)
Definition bytes_obtained (file : ifstream) (size : Z) : list byte :=
  match file with
  | None => []
  | Some data => take (Z.to_nat size) data
  end.

(** A destination buffer of [size] bytes: the read was asked for [size]
    bytes, stored no more than that, and the buffer handed to the upload
    still has [size] bytes. *)
Definition LoadImage_buffer_bound (size : Z) (tr : History) : Prop :=
  ∃ got pixels,
    read_requests tr = [(size, got)] ∧
    uploaded_pixels tr = [pixels] ∧
    Z.of_nat (length pixels) = size ∧
    Z.of_nat (length got) ≤ size.

(** One iteration of the render loop that goes on: the loop condition
    finds no close request, then the body runs. *)
Definition frame_events (window : GLFWwindow) : History :=
  [ Ev_glfwWindowShouldClose window 0;
    Ev_glClearColor 0.5%Q 0.5%Q 0.5%Q 0%Q;
    Ev_glClear (Z.lor GL_COLOR_BUFFER_BIT GL_DEPTH_BUFFER_BIT);
    Ev_glDrawArrays GL_TRIANGLE_STRIP 0 4;
    Ev_glfwSwapBuffers window;
    Ev_glfwPollEvents ].

Fixpoint frames (k : nat) (window : GLFWwindow) : History :=
  match k with
  | O => []
  | S k' => frame_events window ++ frames k' window
  end.

(** Whether the window reports a close request when asked after [k]
    iterations of a loop that was entered with history [h]. *)
Definition close_requested (w : World) (window : GLFWwindow) (h : History)
    (k : nat) : bool :=
  negb (w_glfwWindowShouldClose w (h ++ frames k window) window =? 0).

(** The first iteration, among the first [fuel], at which the window
    reports a close request. *)
Definition first_close (w : World) (window : GLFWwindow) (h : History)
    (fuel : nat) : option nat :=
  List.find (close_requested w window h) (seq 0 fuel).

(** [tr] ends with the calls [suffix]. *)
Definition ends_with (suffix tr : History) : Prop := ∃ pre, tr = pre ++ suffix.

(** How a history of [main] can end. *)

(** The render loop was left on a close request and the process cleaned up. *)
Definition normal_closure (tr : History) : Prop :=
  ∃ window answer,
    answer ≠ 0 ∧
    ends_with [Ev_glfwWindowShouldClose window answer; Ev_glfwTerminate] tr.

(** GLFW did not initialise, no window with a 3.3 context could be created,
    or GLEW does not support OpenGL 3.3; each is reported on [std::cerr]. *)
Definition init_failed (tr : History) : Prop :=
  (∃ line, tr = [Ev_glfwInit 0; Ev_cerr line]) ∨
  (∃ width height title monitor share line,
     ends_with [Ev_glfwCreateWindow width height title monitor share NULL;
                Ev_cerr line; Ev_glfwTerminate] tr) ∨
  (∃ line,
     ends_with [Ev_glewIsSupported "GL_VERSION_3_3" 0;
                Ev_cerr line; Ev_glfwTerminate] tr).

(** The windowing and context collaborator cannot initialise: [glfwInit]
    returned 0, [glfwCreateWindow] returned no window, or
    [glewIsSupported("GL_VERSION_3_3")] returned 0. *)
Definition cannot_initialize (tr : History) : Prop :=
  Ev_glfwInit 0 ∈ tr ∨
  (∃ width height title monitor share,
     Ev_glfwCreateWindow width height title monitor share NULL ∈ tr) ∨
  Ev_glewIsSupported "GL_VERSION_3_3" 0 ∈ tr.

Definition is_init_failure (e : Event) : bool :=
  match e with
  | Ev_glfwInit ret => ret =? 0
  | Ev_glfwCreateWindow _ _ _ _ _ ret => ret =? NULL
  | Ev_glewIsSupported name ret => String.eqb name "GL_VERSION_3_3" && (ret =? 0)
  | _ => false
  end.

(** The run was ended where the buffer of a log is constructed: its last
    two calls are the query of a status that came back [GL_FALSE] and the
    query of the length of the log, which came back with a length that no
    [std::string] can hold. *)
Definition aborted_at_log_buffer (tr : History) : Prop :=
  ∃ len,
    std_string_max_size < u64 len ∧
    ((∃ shader,
        ends_with [Ev_glGetShaderiv shader GL_COMPILE_STATUS GL_FALSE;
                   Ev_glGetShaderiv shader GL_INFO_LOG_LENGTH len] tr) ∨
     (∃ program,
        ends_with [Ev_glGetProgramiv program GL_LINK_STATUS GL_FALSE;
                   Ev_glGetProgramiv program GL_INFO_LOG_LENGTH len] tr)).

(** The kind of call a history ends with, read off its last two calls. *)
Inductive Ending : Type :=
  | Closed | Stopped | AtLogLength | InLoop | Elsewhere.

Definition ending_of (tr : History) : Ending :=
  match reverse tr with
  | Ev_glfwTerminate :: Ev_glfwWindowShouldClose _ _ :: _ => Closed
  | Ev_glfwTerminate :: Ev_cerr _ :: _ => Stopped
  | Ev_cerr _ :: _ => Stopped
  | Ev_glGetShaderiv _ _ _ :: _ => AtLogLength
  | Ev_glGetProgramiv _ _ _ :: _ => AtLogLength
  | Ev_glfwPollEvents :: _ => InLoop
  | Ev_glBindTexture _ _ :: _ => InLoop
  | _ => Elsewhere
  end.

(** The render loop is still running after [fuel] iterations: the window
    was asked [fuel] times and never reported a close request. *)
Definition still_running (fuel : nat) (tr : History) : Prop :=
  ∃ texture window,
    ends_with (Ev_glBindTexture GL_TEXTURE_2D texture :: frames fuel window) tr.

(** ** Example worlds *)

(** How many times a history has polled the window's events. *)
Definition polls (h : History) : nat :=
  length (List.filter (λ e, match e with Ev_glfwPollEvents => true | _ => false end) h).

(** A world with the given files in which every call succeeds: creations
    return the name 1, every status is [GL_TRUE], the logs are empty, every
    shader input is found at location 0, and the window reports a close
    request once its events have been polled [closes_after] times. *)
Definition working_world (files : string → option (list byte))
    (closes_after : nat) : World :=
  {| w_file := files;
     w_glCreateShader := λ _ _, 1;
     w_glGetShaderiv := λ _ _ _, Some GL_TRUE;
     w_glGetShaderInfoLog := λ _ _, "";
     w_glCreateProgram := λ _, 1;
     w_glGetProgramiv := λ _ _ _, Some GL_TRUE;
     w_glGetProgramInfoLog := λ _ _, "";
     w_glGenVertexArrays := λ _, 1;
     w_glGenBuffers := λ _, 1;
     w_glGetAttribLocation := λ _ _ _, 0;
     w_glGenTextures := λ _, 1;
     w_glGetUniformLocation := λ _ _ _, 0;
     w_glfwInit := λ _, 1;
     w_glfwCreateWindow := λ _, 1;
     w_glewInit := λ _, 0;
     w_glewIsSupported := λ _ _, 1;
     w_glfwWindowShouldClose :=
       λ h _, if (closes_after <=? polls h)%nat then 1 else 0 |}.

(** No file at all. *)
Definition no_files : string → option (list byte) := λ _, None.

(** A world without any file in which the driver rejects every shader and
    every program (with the log [bad]) and knows no shader input. *)
Definition failing_world : World :=
  {| w_file := no_files;
     w_glCreateShader := λ _ _, 1;
     w_glGetShaderiv :=
       λ _ _ pname, Some (if pname =? GL_INFO_LOG_LENGTH then 4 else GL_FALSE);
     w_glGetShaderInfoLog := λ _ _, "bad";
     w_glCreateProgram := λ _, 2;
     w_glGetProgramiv :=
       λ _ _ pname, Some (if pname =? GL_INFO_LOG_LENGTH then 4 else GL_FALSE);
     w_glGetProgramInfoLog := λ _ _, "bad";
     w_glGenVertexArrays := λ _, 1;
     w_glGenBuffers := λ _, 1;
     w_glGetAttribLocation := λ _ _ _, -1;
     w_glGenTextures := λ _, 1;
     w_glGetUniformLocation := λ _ _ _, -1;
     w_glfwInit := λ _, 1;
     w_glfwCreateWindow := λ _, 1;
     w_glewInit := λ _, 0;
     w_glewIsSupported := λ _ _, 1;
     w_glfwWindowShouldClose := λ _ _, 1 |}.

(** A world whose driver reports -1 as the length of every log.  The
    shaders are named 1 and 2 and the program 3; the vertex shader
    compiles, the fragment shader compiles unless [bad_fragment], and the
    program does not link. *)
Definition negative_length_world (bad_fragment : bool) : World :=
  {| w_file := no_files;
     w_glCreateShader := λ _ type, if type =? GL_VERTEX_SHADER then 1 else 2;
     w_glGetShaderiv :=
       λ _ shader pname,
         Some (if pname =? GL_INFO_LOG_LENGTH then -1
               else if bad_fragment && (shader =? 2) then GL_FALSE
                    else GL_TRUE);
     w_glGetShaderInfoLog := λ _ _, "bad";
     w_glCreateProgram := λ _, 3;
     w_glGetProgramiv :=
       λ _ _ pname, Some (if pname =? GL_INFO_LOG_LENGTH then -1 else GL_FALSE);
     w_glGetProgramInfoLog := λ _ _, "bad";
     w_glGenVertexArrays := λ _, 1;
     w_glGenBuffers := λ _, 1;
     w_glGetAttribLocation := λ _ _ _, 0;
     w_glGenTextures := λ _, 1;
     w_glGetUniformLocation := λ _ _ _, 0;
     w_glfwInit := λ _, 1;
     w_glfwCreateWindow := λ _, 1;
     w_glewInit := λ _, 0;
     w_glewIsSupported := λ _ _, 1;
     w_glfwWindowShouldClose := λ _ _, 1 |}.

(** ** The shape of a run of [main] *)

(** The calls of [main] up to the creation of the window. *)
Definition window_events (init : Z) (window : GLFWwindow) : History :=
  [ Ev_glfwInit init;
    Ev_glfwWindowHint GLFW_SAMPLES 4;
    Ev_glfwWindowHint GLFW_CONTEXT_VERSION_MAJOR 3;
    Ev_glfwWindowHint GLFW_CONTEXT_VERSION_MINOR 3;
    Ev_glfwWindowHint GLFW_OPENGL_FORWARD_COMPAT GL_TRUE;
    Ev_glfwWindowHint GLFW_OPENGL_PROFILE GLFW_OPENGL_CORE_PROFILE;
    Ev_glfwCreateWindow 512 512 "OpenGL" NULL NULL window ].

(** The calls of [main] up to the check of the OpenGL version. *)
Definition context_events (init : Z) (window : GLFWwindow) (glew_init : Z)
    (supported : GLboolean) : History :=
  window_events init window
  ++ [ Ev_glfwMakeContextCurrent window;
       Ev_glewExperimental GL_TRUE;
       Ev_glewInit glew_init;
       Ev_glewIsSupported "GL_VERSION_3_3" supported ].

(** What came back from the calls of [main] before the render loop. *)
Record SetupAnswers : Type := {
  su_init : Z;
  su_window : GLFWwindow;
  su_glew_init : Z;
  su_supported : GLboolean;
  su_shaders : ShaderAnswers;
  su_vao : GLuint;
  su_vbo : GLuint;
  su_position_attrib : GLint;
  su_tbo : GLuint;
  su_texcoord_attrib : GLint;
  su_texture_id : GLuint;
  su_texture_attrib : GLint
}.

(** The calls of [main] before the render loop when the initialisation
    succeeds, for the files [files]. *)
Definition setup_events (files : string → option (list byte))
    (s : SetupAnswers) : History :=
  let program_id := sa_program_id (su_shaders s) in
  let size := (SIZE * SIZE * 3) mod 2 ^ 32 in
  let got := bytes_obtained (files "lena.rgb") size in
  context_events (su_init s) (su_window s) (su_glew_init s) (su_supported s)
  ++ ShaderProgram_events "gl_texture.vert" "gl_texture.frag"
       (files "gl_texture.vert") (files "gl_texture.frag") (su_shaders s)
  ++ [ Ev_glUseProgram program_id ]
  ++ InitializeGeometry_events program_id (su_vao s) (su_vbo s)
       (su_position_attrib s) (su_tbo s) (su_texcoord_attrib s)
  ++ LoadImage_events "lena.rgb" SIZE SIZE size (su_texture_id s)
       (bool_decide (is_Some (files "lena.rgb"))) got
       (got ++ replicate (Z.to_nat size - length got) x00)
  ++ [ Ev_glGetUniformLocation program_id "Texture" (su_texture_attrib s);
       Ev_glUniform1i (su_texture_attrib s) 0;
       Ev_glActiveTexture (GL_TEXTURE0 + 0);
       Ev_glBindTexture GL_TEXTURE_2D (su_texture_id s) ].

(** The five ways a run of [main] from the history [h] can go: one for
    each failed initialisation, the run in which [ShaderProgram] is ended
    by an exception, and the run that reaches the render loop. *)
Definition main_shape (w : World) (fuel : nat) (h : History)
    (r : option (Outcome Z)) (tr : History) : Prop :=
  (r = Some (Returned EXIT_FAILURE) ∧
   tr = [Ev_glfwInit 0; Ev_cerr "Failed to initialize GLFW!"]) ∨
  (r = Some (Returned EXIT_FAILURE) ∧
   ∃ init, init ≠ 0 ∧
     tr = window_events init NULL
          ++ [Ev_cerr "Failed to open GLFW window, your graphics card is probably only capable of OpenGL 2.1";
              Ev_glfwTerminate]) ∨
  (r = Some (Returned EXIT_FAILURE) ∧
   ∃ init window glew_init, init ≠ 0 ∧ window ≠ NULL ∧
     tr = context_events init window glew_init 0
          ++ [Ev_cerr "Failed to initialize GLEW with OpenGL 3.3!";
              Ev_glfwTerminate]) ∨
  (r = Some (Thrown std_length_error) ∧
   ∃ init window glew_init supported a,
     init ≠ 0 ∧ window ≠ NULL ∧ supported ≠ 0 ∧
     ShaderProgram_throws a = true ∧
     tr = context_events init window glew_init supported
          ++ ShaderProgram_thrown_events "gl_texture.vert" "gl_texture.frag"
               (w_file w "gl_texture.vert") (w_file w "gl_texture.frag") a) ∨
  (∃ s, su_init s ≠ 0 ∧ su_window s ≠ NULL ∧ su_supported s ≠ 0 ∧
     ShaderProgram_throws (su_shaders s) = false ∧
     let setup := setup_events (w_file w) s in
     let window := su_window s in
     match first_close w window (h ++ setup) fuel with
     | Some k =>
         r = Some (Returned EXIT_SUCCESS) ∧
         tr = setup ++ frames k window
              ++ [Ev_glfwWindowShouldClose window
                    (w_glfwWindowShouldClose w (h ++ setup ++ frames k window) window);
                  Ev_glfwTerminate]
     | None => r = None ∧ tr = setup ++ frames fuel window
     end).

(** A file system that holds the single file [name] with content [data]. *)
Definition one_file (name : string) (data : list byte)
  : string → option (list byte) :=
  λ path, if String.eqb path name then Some data else None.


(** ** More readings of a history *)

(** How many completed calls of the library function [name] a history has. *)
Definition count_calls (name : string) (tr : History) : nat :=
  length (List.filter (λ e, String.eqb (call_name e) name) tr).

(** The names of the calls of the render loop and of the clean-up. *)
Definition loop_call_names : list string :=
  [ "glfwWindowShouldClose"; "glClearColor"; "glClear"; "glDrawArrays";
    "glfwSwapBuffers"; "glfwPollEvents"; "glfwTerminate" ].



(** The source strings handed to [glShaderSource], with the shader. *)
Definition shader_sources (tr : History) : list (GLuint * string) :=
  omap (λ e, match e with
             | Ev_glShaderSource shader _ source => Some (shader, source)
             | _ => None
             end) tr.

(** Whether a string holds the character NUL. *)
Fixpoint has_nul (s : string) : bool :=
  match s with
  | EmptyString => false
  | String c rest => Ascii.eqb c Ascii.zero || has_nul rest
  end.

(** ** What is bound when a call is made

    OpenGL calls act on whatever was selected last: [glBufferData] fills the
    buffer of the latest [glBindBuffer], [glVertexAttribPointer] takes its
    data from that buffer and records it in the vertex array of the latest
    [glBindVertexArray], [glBindTexture] binds to the unit of the latest
    [glActiveTexture], and [glDrawArrays] draws with all of them.
    [Bindings] keeps those latest selections along a history.  They are
    the selections OpenGL makes for names that the driver generated, which
    is what the program passes. *)
Record Bindings : Type := {
  b_vertex_array : GLuint;
  b_array_buffer : GLuint;
  b_buffer_data : gmap Z (list GLfloat);
  b_texture_unit : GLenum;
  b_texture_2d : gmap Z GLuint
}.

(** A context in which nothing was selected yet: the names are 0 and the
    active texture unit is [GL_TEXTURE0]. *)
Definition no_bindings : Bindings :=
  {| b_vertex_array := 0; b_array_buffer := 0;
     b_buffer_data := ∅; b_texture_unit := GL_TEXTURE0;
     b_texture_2d := ∅ |}.

Definition bindings_step (b : Bindings) (e : Event) : Bindings :=
  match e with
  | Ev_glBindVertexArray array =>
      {| b_vertex_array := array;
         b_array_buffer := b_array_buffer b; b_buffer_data := b_buffer_data b;
         b_texture_unit := b_texture_unit b; b_texture_2d := b_texture_2d b |}
  | Ev_glBindBuffer target buffer =>
      if target =? GL_ARRAY_BUFFER then
        {| b_vertex_array := b_vertex_array b;
           b_array_buffer := buffer; b_buffer_data := b_buffer_data b;
           b_texture_unit := b_texture_unit b; b_texture_2d := b_texture_2d b |}
      else b
  | Ev_glBufferData target _ data _ =>
      if target =? GL_ARRAY_BUFFER then
        {| b_vertex_array := b_vertex_array b;
           b_array_buffer := b_array_buffer b;
           b_buffer_data := <[b_array_buffer b := data]> (b_buffer_data b);
           b_texture_unit := b_texture_unit b; b_texture_2d := b_texture_2d b |}
      else b
  | Ev_glActiveTexture unit =>
      {| b_vertex_array := b_vertex_array b;
         b_array_buffer := b_array_buffer b; b_buffer_data := b_buffer_data b;
         b_texture_unit := unit; b_texture_2d := b_texture_2d b |}
  | Ev_glBindTexture target texture =>
      if target =? GL_TEXTURE_2D then
        {| b_vertex_array := b_vertex_array b;
           b_array_buffer := b_array_buffer b; b_buffer_data := b_buffer_data b;
           b_texture_unit := b_texture_unit b;
           b_texture_2d := <[b_texture_unit b := texture]> (b_texture_2d b) |}
      else b
  | _ => b
  end.

Definition bindings_after (b : Bindings) (tr : History) : Bindings :=
  foldl bindings_step b tr.

(** The calls of [tr] that satisfy [select], each with the bindings in
    force when it was made, for a history entered with the bindings [b]. *)
Fixpoint bindings_at (select : Event → bool) (b : Bindings) (tr : History)
  : list (Bindings * Event) :=
  match tr with
  | [] => []
  | e :: rest =>
      (if select e then [(b, e)] else [])
      ++ bindings_at select (bindings_step b e) rest
  end.

(** ** What the program asked for last

    Whether [glUseProgram] makes a program current depends on whether the
    driver linked it, and whether [glUniform1i] sets a uniform depends on
    the program that is current: a history does not tell either.
    [Requests] therefore keeps what the program asked for, not what is in
    force: the program named by the latest call of [glUseProgram], and for
    each location the value passed by the latest call of [glUniform1i]. *)
Record Requests : Type := {
  q_program : GLuint;
  q_uniform_1i : gmap Z GLint
}.

Definition requests_step (q : Requests) (e : Event) : Requests :=
  match e with
  | Ev_glUseProgram program =>
      {| q_program := program; q_uniform_1i := q_uniform_1i q |}
  | Ev_glUniform1i location v0 =>
      {| q_program := q_program q;
         q_uniform_1i := <[location := v0]> (q_uniform_1i q) |}
  | _ => q
  end.

Definition requests_after (q : Requests) (tr : History) : Requests :=
  foldl requests_step q tr.

(** The calls of [tr] that satisfy [select], each with the latest requests
    made before it, for a history entered with the requests [q]. *)
Fixpoint requests_at (select : Event → bool) (q : Requests) (tr : History)
  : list (Requests * Event) :=
  match tr with
  | [] => []
  | e :: rest =>
      (if select e then [(q, e)] else [])
      ++ requests_at select (requests_step q e) rest
  end.

Definition is_attrib_pointer (e : Event) : bool :=
  match e with Ev_glVertexAttribPointer _ _ _ _ _ _ => true | _ => false end.

Definition is_draw (e : Event) : bool :=
  match e with Ev_glDrawArrays _ _ _ => true | _ => false end.

(** A world in which the two shaders are named 1 and 2, the driver reports
    the compile status [GL_TRUE] for the vertex shader and leaves the output
    parameter of every other status or length query untouched. *)
Definition silent_driver_world : World :=
  {| w_file := no_files;
     w_glCreateShader := λ _ type, if type =? GL_VERTEX_SHADER then 1 else 2;
     w_glGetShaderiv :=
       λ _ shader pname,
         if (shader =? 1) && (pname =? GL_COMPILE_STATUS) then Some GL_TRUE
         else None;
     w_glGetShaderInfoLog := λ _ _, "";
     w_glCreateProgram := λ _, 3;
     w_glGetProgramiv := λ _ _ _, None;
     w_glGetProgramInfoLog := λ _ _, "";
     w_glGenVertexArrays := λ _, 1;
     w_glGenBuffers := λ _, 1;
     w_glGetAttribLocation := λ _ _ _, 0;
     w_glGenTextures := λ _, 1;
     w_glGetUniformLocation := λ _ _ _, 0;
     w_glfwInit := λ _, 1;
     w_glfwCreateWindow := λ _, 1;
     w_glewInit := λ _, 0;
     w_glewIsSupported := λ _ _, 1;
     w_glfwWindowShouldClose := λ _ _, 1 |}.

(** A world in which the driver leaves the output parameter of every
    status or length query untouched. *)
Definition mute_driver_world : World :=
  {| w_file := no_files;
     w_glCreateShader := λ _ type, if type =? GL_VERTEX_SHADER then 1 else 2;
     w_glGetShaderiv := λ _ _ _, None;
     w_glGetShaderInfoLog := λ _ _, "unseen";
     w_glCreateProgram := λ _, 3;
     w_glGetProgramiv := λ _ _ _, None;
     w_glGetProgramInfoLog := λ _ _, "unseen";
     w_glGenVertexArrays := λ _, 1;
     w_glGenBuffers := λ _, 1;
     w_glGetAttribLocation := λ _ _ _, 0;
     w_glGenTextures := λ _, 1;
     w_glGetUniformLocation := λ _ _ _, 0;
     w_glfwInit := λ _, 1;
     w_glfwCreateWindow := λ _, 1;
     w_glewInit := λ _, 0;
     w_glewIsSupported := λ _ _, 1;
     w_glfwWindowShouldClose := λ _ _, 1 |}.


(** * Reasoning about runs *)

(** [produces m h P]: run from the history [h], the computation [m] returns
    some [a] and appends some [tr] to the history, with [P a tr]. *)
Definition produces {A} (m : M A) (h : History) (P : A → History → Prop) : Prop :=
  ∃ a tr, m h = (a, h ++ tr) ∧ P a tr.

Lemma produces_ret {A} (a : A) h (P : A → History → Prop) :
  P a [] → produces (ret a) h P.
Proof. intros HP. exists a, []. by rewrite app_nil_r. Qed.

Lemma produces_emit e h (P : unit → History → Prop) :
  P tt [e] → produces (emit e) h P.
Proof. intros HP. by exists tt, [e]. Qed.

Lemma produces_ask {A} (f : History → A) (e : A → Event) h
    (P : A → History → Prop) :
  (∀ a, a = f h → P a [e a]) → produces (ask f e) h P.
Proof. intros HP. exists (f h), [e (f h)]. split; [done | by apply HP]. Qed.

Lemma produces_bind {A B} (m : M A) (k : A → M B) h (P : B → History → Prop) :
  produces m h (λ a tr1, produces (k a) (h ++ tr1) (λ b tr2, P b (tr1 ++ tr2))) →
  produces (bind m k) h P.
Proof.
  intros (a & tr1 & Hm & b & tr2 & Hk & HP).
  exists b, (tr1 ++ tr2). unfold bind. by rewrite Hm, Hk, app_assoc.
Qed.

Lemma produces_impl {A} (m : M A) h (P Q : A → History → Prop) :
  (∀ a tr, P a tr → Q a tr) → produces m h P → produces m h Q.
Proof. intros HPQ (a & tr & Hm & HP). exists a, tr. auto. Qed.

Lemma produces_try_bind {A B} (m : M (Outcome A)) (k : A → M (Outcome B)) h
    (P : Outcome B → History → Prop) :
  produces m h
    (λ r tr1,
       match r with
       | Returned a => produces (k a) (h ++ tr1) (λ b tr2, P b (tr1 ++ tr2))
       | Thrown e => P (Thrown e) tr1
       end) →
  produces (try_bind m k) h P.
Proof.
  intros Hm. apply produces_bind.
  destruct Hm as (r & tr1 & Hm & Hk). exists r, tr1. split; [exact Hm|].
  destruct r as [a|e]; [exact Hk|].
  apply produces_ret. by rewrite app_nil_r.
Qed.

Create HintDb calls.
#[global] Hint Unfold cout cerr ifstream_open ifstream_get_all ifstream_read
  ifstream_close
  glCreateShader glShaderSource glCompileShader glGetShaderiv glGetShaderInfoLog
  glCreateProgram glAttachShader glBindFragDataLocation glLinkProgram
  glGetProgramiv glGetProgramInfoLog glDeleteShader glUseProgram
  glGenVertexArrays glBindVertexArray glGenBuffers glBindBuffer glBufferData
  glGetAttribLocation glVertexAttribPointer glEnableVertexAttribArray
  glGenTextures glBindTexture glTexParameteri glTexImage2D
  glfwInit glfwWindowHint glfwCreateWindow glfwMakeContextCurrent glfwTerminate
  glewExperimental glewInit glewIsSupported glGetUniformLocation glUniform1i
  glActiveTexture glfwWindowShouldClose glClearColor glClear glDrawArrays
  glfwSwapBuffers glfwPollEvents : calls.

(** One step of a run: the head call is performed and what it returns is
    named; the equation that ties an answer to the world is kept only where
    it does not mention the history. *)
Ltac step :=
  lazymatch goal with
  | |- produces (bind _ _) _ _ => apply produces_bind
  | |- produces (try_bind _ _) _ _ => apply produces_try_bind
  | |- produces (ret _) _ _ => apply produces_ret
  | |- produces (emit _) _ _ => apply produces_emit
  | |- produces (ask (λ _, ?f) _) _ _ =>
      let a := fresh "a" in
      let Ha := fresh "Ha" in
      apply produces_ask; intros a Ha; simpl in Ha; subst a
  | |- produces (ask _ _) _ _ =>
      let a := fresh "a" in apply produces_ask; intros a _
  | |- produces (if ?c then _ else _) _ _ => destruct c eqn:?
  end.

Ltac run_calls := autounfold with calls; repeat step.

(** Turns a goal [∃ a tr, m h = (a, h ++ tr) ∧ P a tr] into [produces]. *)
Ltac as_run :=
  lazymatch goal with
  | |- ex (λ a, ex (λ tr, ?m ?h = (a, ?h ++ tr) ∧ @?P a tr)) =>
      change (produces m h P)
  end.

(** ** The log buffers *)

(** A count that was converted from an [unsigned int] always fits. *)
Lemma std_string_u32 z ch :
  std_string (u32 z) ch = Returned (std_string_fill (Z.to_nat (u32 z)) ch).
Proof.
  unfold std_string.
  assert (0 ≤ u32 z < 2 ^ 32) as Hu by (apply Z.mod_pos_bound; lia).
  assert (2 ^ 32 ≤ std_string_max_size) as Hmax by (by vm_compute).
  destruct (Z.ltb_spec std_string_max_size (u32 z)); [lia|done].
Qed.

(** A non-negative [int] converted to [unsigned long] fits, a negative one
    does not. *)
Lemma std_string_fits n :
  0 ≤ n < 2 ^ 31 → (std_string_max_size <? u64 n) = false.
Proof.
  intros Hn. unfold u64. rewrite Z.mod_small by lia.
  assert (2 ^ 31 ≤ std_string_max_size) as Hmax by (by vm_compute).
  apply Z.ltb_ge. lia.
Qed.

Lemma std_string_negative n :
  - 2 ^ 31 ≤ n < 0 → (std_string_max_size <? u64 n) = true.
Proof.
  intros Hn. unfold u64.
  replace (n mod 2 ^ 64) with (n + 2 ^ 64).
  - assert (std_string_max_size < 2 ^ 64 - 2 ^ 31) as Hmax by (by vm_compute).
    apply Z.ltb_lt. lia.
  - apply Z.mod_unique with (q := -1); lia.
Qed.

Lemma held_length_zero w : held_length w 0.
Proof. by left. Qed.

Lemma held_length_shader w cur h shader a :
  a = default cur (w_glGetShaderiv w h shader GL_INFO_LOG_LENGTH) →
  held_length w cur → held_length w a.
Proof.
  intros -> Hcur.
  destruct (w_glGetShaderiv w h shader GL_INFO_LOG_LENGTH) as [n|] eqn:Hn;
    [|exact Hcur].
  right; left. by exists h, shader.
Qed.

Lemma held_length_program w cur h program a :
  a = default cur (w_glGetProgramiv w h program GL_INFO_LOG_LENGTH) →
  held_length w cur → held_length w a.
Proof.
  intros -> Hcur.
  destruct (w_glGetProgramiv w h program GL_INFO_LOG_LENGTH) as [n|] eqn:Hn;
    [|exact Hcur].
  right; right. by exists h, program.
Qed.

Lemma held_length_in_range w n :
  log_lengths_in_range w → held_length w n → 0 ≤ n < 2 ^ 31.
Proof.
  intros [Hshader Hprogram] [->|[(h & s & Hn)|(h & p & Hn)]]; [lia|eauto..].
Qed.

(** With a driver that reports its log lengths in range, no run of
    [ShaderProgram] is ended by an exception. *)
Lemma in_range_never_throws w a :
  log_lengths_in_range w →
  held_length w (sa_fragment_log_length a) →
  held_length w (sa_link_log_length a) →
  ShaderProgram_throws a = false.
Proof.
  intros Hw Hf Hl. unfold ShaderProgram_throws, log_too_long.
  rewrite !std_string_fits by eauto using held_length_in_range.
  by rewrite !andb_false_r.
Qed.

(** The calls up to the next one whose answer matters are performed. *)
Ltac skip_calls :=
  repeat lazymatch goal with
         | |- produces (bind (emit _) _) _ _ =>
             apply produces_bind; apply produces_emit
         | |- produces (bind (ask (λ _, ?f) _) _) _ _ =>
             let a := fresh "a" in
             let Ha := fresh "Ha" in
             apply produces_bind; apply produces_ask; intros a Ha;
             simpl in Ha; subst a
         end.

(** The head call is a query; its answer is named [x] and the equation
    that ties it to the world is named [H]. *)
Ltac ask_named x H :=
  apply produces_bind; apply produces_ask; intros x H; cbn beta in H.

(** The end of one path through [ShaderProgram]: the answers met on the
    way are put together, and the calls made are compared with the shape
    that belongs to them. *)
Ltac end_of_run w a :=
  exists a;
  repeat match goal with x := _ |- _ => subst x end;
  unfold ShaderProgram_trace, ShaderProgram_outcome, ShaderProgram_throws,
    ShaderProgram_thrown_events, ShaderProgram_events, report_events,
    log_too_long;
  cbn [sa_vertex_status sa_fragment_status sa_link_status sa_program_id
       sa_vertex_shader_id sa_fragment_shader_id sa_vertex_log_length
       sa_vertex_log sa_fragment_log_length sa_fragment_log
       sa_link_log_length sa_program_log];
  repeat match goal with
         | H : _ = true |- _ => rewrite H
         | H : _ = false |- _ => rewrite H
         end;
  cbn [andb orb app];
  split; [reflexivity|]; split; [reflexivity|];
  repeat split; auto using held_length_zero.

(** Case analysis on the path that a run of [ShaderProgram] with the
    answers [a] takes. *)
Ltac all_paths a :=
  unfold ShaderProgram_trace, ShaderProgram_thrown_events,
    ShaderProgram_events, report_events;
  destruct (ShaderProgram_throws a),
    (log_too_long (sa_fragment_status a) (sa_fragment_log_length a)),
    (sa_vertex_status a =? GL_FALSE), (sa_fragment_status a =? GL_FALSE),
    (sa_link_status a =? GL_FALSE).

Section Runs.
Context (w : World).

(** Every run of [ShaderProgram] ends and has the calls that belong to
    the answers it got: [ShaderProgram_events] when it returns,
    [ShaderProgram_thrown_events] when a log buffer cannot be
    constructed.  The log lengths it held were 0 or written by the
    driver. *)
Lemma ShaderProgram_run vertex_shader_file fragment_shader_file h :
  ∃ a, ShaderProgram w vertex_shader_file fragment_shader_file h
       = (ShaderProgram_outcome a,
          h ++ ShaderProgram_trace vertex_shader_file fragment_shader_file
                 (w_file w vertex_shader_file) (w_file w fragment_shader_file) a) ∧
       held_length w (sa_vertex_log_length a) ∧
       held_length w (sa_fragment_log_length a) ∧
       held_length w (sa_link_log_length a).
Proof.
  cut (produces (ShaderProgram w vertex_shader_file fragment_shader_file) h
         (λ r tr, ∃ a,
            tr = ShaderProgram_trace vertex_shader_file fragment_shader_file
                   (w_file w vertex_shader_file)
                   (w_file w fragment_shader_file) a ∧
            r = ShaderProgram_outcome a ∧
            held_length w (sa_vertex_log_length a) ∧
            held_length w (sa_fragment_log_length a) ∧
            held_length w (sa_link_log_length a))).
  { intros (r & tr & Hrun & a & -> & -> & Hheld). by exists a. }
  unfold ShaderProgram. autounfold with calls.
  ask_named vs Hvs. ask_named fs Hfs. clear Hvs Hfs. skip_calls.
  (* the vertex shader *)
  ask_named sv Hsv. clear Hsv. apply produces_try_bind.
  destruct (sv =? GL_FALSE) eqn:Hsv;
    [ ask_named lv Hlv; apply held_length_shader in Hlv; [|apply held_length_zero];
      apply produces_try_bind; apply produces_ret;
      rewrite std_string_u32; cbn beta iota;
      ask_named gv Hgv; clear Hgv; skip_calls; apply produces_ret
    | pose (lv := 0); pose (gv := ""); apply produces_ret ];
    cbn beta iota; skip_calls.
  (* the fragment shader *)
  all: ask_named sf Hsf; clear Hsf; apply produces_try_bind.
  all: destruct (sf =? GL_FALSE) eqn:Hsf;
    [ ask_named lf Hlf; apply held_length_shader in Hlf;
        [|first [assumption | apply held_length_zero]];
      apply produces_try_bind; apply produces_ret; cbn beta;
      unfold std_string at 1;
      destruct (std_string_max_size <? u64 lf) eqn:Hlong_f; cbn beta iota;
      [ pose (gf := ""); pose (pid := 0); pose (sl := 0); pose (ll := 0);
        pose (gl := "")
      | ask_named gf Hgf; clear Hgf; skip_calls; apply produces_ret;
        cbn beta iota; skip_calls ]
    | pose (lf := 0); pose (gf := ""); apply produces_ret;
      cbn beta iota; skip_calls ].
  (* the run ended at the buffer of the fragment log *)
  all: try solve [end_of_run w
              {| sa_vertex_shader_id := vs; sa_fragment_shader_id := fs;
                 sa_vertex_status := sv; sa_vertex_log_length := lv;
                 sa_vertex_log := gv; sa_fragment_status := sf;
                 sa_fragment_log_length := lf; sa_fragment_log := gf;
                 sa_program_id := pid; sa_link_status := sl;
                 sa_link_log_length := ll; sa_program_log := gl |}].
  (* the program *)
  all: ask_named pid Hpid; clear Hpid; skip_calls.
  all: ask_named sl Hsl; clear Hsl; apply produces_try_bind.
  all: destruct (sl =? GL_FALSE) eqn:Hsl;
    [ ask_named ll Hll; apply held_length_program in Hll;
        [|first [assumption | apply held_length_zero]];
      apply produces_try_bind; apply produces_ret; cbn beta;
      unfold std_string at 1;
      destruct (std_string_max_size <? u64 ll) eqn:Hlong_l; cbn beta iota;
      [ pose (gl := "")
      | ask_named gl Hgl; clear Hgl; skip_calls; apply produces_ret;
        cbn beta iota; skip_calls; apply produces_ret ]
    | pose (ll := 0); pose (gl := ""); apply produces_ret;
      cbn beta iota; skip_calls; apply produces_ret ].
  all: end_of_run w
         {| sa_vertex_shader_id := vs; sa_fragment_shader_id := fs;
            sa_vertex_status := sv; sa_vertex_log_length := lv;
            sa_vertex_log := gv; sa_fragment_status := sf;
            sa_fragment_log_length := lf; sa_fragment_log := gf;
            sa_program_id := pid; sa_link_status := sl;
            sa_link_log_length := ll; sa_program_log := gl |}.
Qed.

End Runs.


(** Looks for the event singled out by [H : tr = pre ++ e :: post] in an
    explicit [tr], position by position. *)
Ltac scan_trace pre H :=
  unfold GL_COMPILE_STATUS, GL_LINK_STATUS, GL_INFO_LOG_LENGTH, GL_FALSE in *;
  repeat (destruct pre as [|? pre]; cbn [app] in H;
          [ try discriminate H; try (injection H as H; (discriminate H || lia || idtac))
          | try discriminate H; injection H as ? H; subst ]).

Section ShaderProgramProperties.
Context (w : World).

Lemma ShaderProgram_events_reported_compile vf ff vfile ffile a :
  compile_failures_reported (ShaderProgram_events vf ff vfile ffile a).
Proof.
  destruct a as [vs fs sv lv gv sf lf gf prog sl ll gl].
  unfold ShaderProgram_events, report_events; cbn.
  destruct (sv =? GL_FALSE) eqn:Ev, (sf =? GL_FALSE) eqn:Ef,
           (sl =? GL_FALSE) eqn:El; cbn [app].
  all: intros pre shader post H.
  all: scan_trace pre H.
  all: subst; try (exfalso; cbn in *; congruence).
  all: by do 3 eexists.
Qed.

Lemma ShaderProgram_events_reported_link vf ff vfile ffile a :
  link_failures_reported (ShaderProgram_events vf ff vfile ffile a).
Proof.
  destruct a as [vs fs sv lv gv sf lf gf prog sl ll gl].
  unfold ShaderProgram_events, report_events; cbn.
  destruct (sv =? GL_FALSE) eqn:Ev, (sf =? GL_FALSE) eqn:Ef,
           (sl =? GL_FALSE) eqn:El; cbn [app].
  all: intros pre shader post H.
  all: scan_trace pre H.
  all: subst; try (exfalso; cbn in *; congruence).
  all: by do 3 eexists.
Qed.

Lemma ShaderProgram_events_order vf ff vfile ffile a :
  compiles_links_and_cleans_up (sa_program_id a)
    (ShaderProgram_events vf ff vfile ffile a).
Proof.
  unfold compiles_links_and_cleans_up, ShaderProgram_events.
  exists (sa_vertex_shader_id a), (sa_fragment_shader_id a),
    (sa_vertex_status a), (sa_fragment_status a), (sa_link_status a).
  eexists (_ :: _ :: _ :: _ :: _ :: _ :: _ :: [_]).
  exists (report_events (Ev_glGetShaderiv (sa_vertex_shader_id a))
            (Ev_glGetShaderInfoLog (sa_vertex_shader_id a))
            (sa_vertex_status a) (sa_vertex_log_length a) (sa_vertex_log a)
          ++ [Ev_cout "Compiling Fragment Shader ...";
              Ev_glShaderSource (sa_fragment_shader_id a) 1
                (c_str (istreambuf_all ffile))]).
  exists (report_events (Ev_glGetShaderiv (sa_fragment_shader_id a))
            (Ev_glGetShaderInfoLog (sa_fragment_shader_id a))
            (sa_fragment_status a) (sa_fragment_log_length a)
            (sa_fragment_log a)
          ++ [Ev_cout "Linking Shader Program ..."]).
  exists (report_events (Ev_glGetProgramiv (sa_program_id a))
            (Ev_glGetProgramInfoLog (sa_program_id a))
            (sa_link_status a) (sa_link_log_length a) (sa_program_log a)).
  cbn [app]. by rewrite <- !app_assoc.
Qed.

Lemma ShaderProgram_events_diagnostics vf ff vfile ffile a :
  diagnostics (ShaderProgram_events vf ff vfile ffile a) = [].
Proof.
  unfold ShaderProgram_events, report_events.
  by destruct (_ =? _), (_ =? _), (_ =? _).
Qed.



(** Which statuses a run that returned has seen fail. *)
Lemma ShaderProgram_events_failures vf ff vfile ffile a :
  let tr := ShaderProgram_events vf ff vfile ffile a in
  (∀ shader,
     Ev_glGetShaderiv shader GL_COMPILE_STATUS GL_FALSE ∈ tr →
     Ev_glAttachShader (sa_program_id a) shader ∈ tr) ∧
  (∀ program,
     Ev_glGetProgramiv program GL_LINK_STATUS GL_FALSE ∈ tr →
     program = sa_program_id a).
Proof.
  destruct a as [vs fs sv lv gv sf lf gf prog sl ll gl].
  unfold ShaderProgram_events, report_events; cbn.
  unfold GL_COMPILE_STATUS, GL_LINK_STATUS, GL_INFO_LOG_LENGTH, GL_FALSE.
  destruct (sv =? 0), (sf =? 0), (sl =? 0); cbn [app].
  all: split; [intros shader Hin | intros program Hin].
  all: repeat (apply elem_of_cons in Hin as [Hin|Hin];
               [try discriminate Hin; injection Hin as ?; subst|]);
         try (by apply elem_of_nil in Hin); try done.
  all: repeat first [apply list_elem_of_here | apply list_elem_of_further].
Qed.

Lemma ShaderProgram_events_invalid vf ff vfile ffile a :
  let tr := ShaderProgram_events vf ff vfile ffile a in
  build_failed tr → zero_or_invalid (sa_program_id a) tr.
Proof.
  intros tr [[shader Hin]|[program Hin]];
    destruct (ShaderProgram_events_failures vf ff vfile ffile a)
      as [Hcompile Hlink].
  - right; right. exists shader. split; [exact Hin | by apply Hcompile].
  - right; left. by rewrite <- (Hlink program Hin).
Qed.

(** A run of [ShaderProgram] with a driver that reports its log lengths
    in range returns, with the calls [ShaderProgram_events]. *)
Lemma ShaderProgram_returns vertex_shader_file fragment_shader_file h :
  log_lengths_in_range w →
  ∃ a, ShaderProgram w vertex_shader_file fragment_shader_file h
       = (Returned (sa_program_id a),
          h ++ ShaderProgram_events vertex_shader_file fragment_shader_file
                 (w_file w vertex_shader_file)
                 (w_file w fragment_shader_file) a).
Proof.
  intros Hw.
  destruct (ShaderProgram_run w vertex_shader_file fragment_shader_file h)
    as (a & Hrun & _ & Hf & Hl).
  exists a. rewrite Hrun.
  unfold ShaderProgram_outcome, ShaderProgram_trace.
  by rewrite (in_range_never_throws w a Hw Hf Hl).
Qed.

(** C1 (as amended): with a driver that reports every log length as a
    non-negative [GLint], [ShaderProgram] always returns, and what it
    returns is the name that [glCreateProgram] gave it, whatever the
    statuses were.  A compile status or a link status of [GL_FALSE] is
    followed at once by the fetch and the printing of the log concerned,
    and the run goes on: on every path both stages are compiled, the
    program is linked and its link status read, and the shaders are
    deleted; nothing is written to the diagnostic stream.  After a
    failure the handle returned is zero or invalid. *)
Theorem ShaderProgram_failures_not_fatal vertex_shader_file fragment_shader_file h :
  log_lengths_in_range w →
  ∃ program_id tr,
    ShaderProgram w vertex_shader_file fragment_shader_file h
    = (Returned program_id, h ++ tr) ∧
    compile_failures_reported tr ∧
    link_failures_reported tr ∧
    compiles_links_and_cleans_up program_id tr ∧
    diagnostics tr = [] ∧
    (build_failed tr → zero_or_invalid program_id tr).
Proof.
  intros Hw.
  destruct (ShaderProgram_returns vertex_shader_file fragment_shader_file h Hw)
    as [a Ha].
  eexists _, _. split; [exact Ha|].
  split; [apply ShaderProgram_events_reported_compile|].
  split; [apply ShaderProgram_events_reported_link|].
  split; [apply ShaderProgram_events_order|].
  split; [apply ShaderProgram_events_diagnostics|].
  apply ShaderProgram_events_invalid.
Qed.


End ShaderProgramProperties.


(** ** Integer conversions and buffers *)

(** [width*height*3] in [unsigned int] is the product modulo 2^32. *)
Lemma u32_pixel_bytes width height :
  u32 (u32 (u32 width * u32 height) * 3) = (width * height * 3) mod 2 ^ 32.
Proof.
  unfold u32. symmetry.
  rewrite <- Z.mul_mod_idemp_l by lia.
  by rewrite (Z.mul_mod width height) by lia.
Qed.

Lemma length_std_vector_char n : length (std_vector_char n) = Z.to_nat n.
Proof. apply length_replicate. Qed.

(** A read of as many bytes as the zeroed destination holds: the bytes
    obtained come first, the rest of the destination is still zero. *)
Lemma istream_read_zeroed file n :
  let got := bytes_obtained file (Z.of_nat n) in
  (istream_read file (replicate n x00) n).1
  = (got ++ replicate (n - length got) x00, got).
Proof.
  destruct file as [data|]; cbn.
  - rewrite Nat2Z.id. by rewrite drop_replicate.
  - by rewrite Nat.sub_0_r.
Qed.

Lemma length_bytes_obtained file size :
  (length (bytes_obtained file size) ≤ Z.to_nat size)%nat.
Proof.
  destruct file as [data|]; cbn; [|lia].
  rewrite length_take. lia.
Qed.

Section GeometryAndImage.
Context (w : World).

(** Every run of [InitializeGeometry] has the shape
    [InitializeGeometry_events]. *)
Lemma InitializeGeometry_run program_id h :
  ∃ vao vbo position_attrib tbo texcoord_attrib,
    InitializeGeometry w program_id h
    = (tt, h ++ InitializeGeometry_events program_id vao vbo position_attrib
                  tbo texcoord_attrib).
Proof.
  cut (produces (InitializeGeometry w program_id) h
         (λ _ tr, ∃ vao vbo position_attrib tbo texcoord_attrib,
            tr = InitializeGeometry_events program_id vao vbo
                   position_attrib tbo texcoord_attrib)).
  { intros ([] & tr & Hrun & vao & vbo & pa & tbo & ta & ->).
    by exists vao, vbo, pa, tbo, ta. }
  unfold InitializeGeometry. run_calls.
  by eexists _, _, _, _, _.
Qed.

(** Every run of [LoadImage] has the shape [LoadImage_events]: the read
    asks for [(width*height*3) mod 2^32] bytes, and the buffer that is
    uploaded holds the bytes obtained followed by zeros. *)
Lemma LoadImage_run image_file width height h :
  let size := (width * height * 3) mod 2 ^ 32 in
  let got := bytes_obtained (w_file w image_file) size in
  ∃ texture_id,
    LoadImage w image_file width height h
    = (texture_id,
       h ++ LoadImage_events image_file width height size texture_id
              (bool_decide (is_Some (w_file w image_file))) got
              (got ++ replicate (Z.to_nat size - length got) x00)).
Proof.
  intros size got.
  cut (produces (LoadImage w image_file width height) h
         (λ id tr,
            tr = LoadImage_events image_file width height size id
                   (bool_decide (is_Some (w_file w image_file))) got
                   (got ++ replicate (Z.to_nat size - length got) x00))).
  { intros (id & tr & Hrun & ->). by exists id. }
  unfold LoadImage. run_calls.
  rewrite length_std_vector_char, u32_pixel_bytes. fold size.
  assert (0 ≤ size) by (apply Z.mod_pos_bound; lia).
  rewrite Z2Nat.id by done.
  unfold std_vector_char. cbn [app].
  pose proof (istream_read_zeroed (w_file w image_file) (Z.to_nat size)) as Hread.
  cbn zeta in Hread. rewrite Z2Nat.id in Hread by done. fold got in Hread.
  destruct (istream_read _ _ _) as [[pixels got'] st]. cbn in Hread.
  by injection Hread as -> ->.
Qed.

End GeometryAndImage.


(** ** The render loop *)

Lemma frames_snoc k window :
  frames (S k) window = frames k window ++ frame_events window.
Proof.
  induction k as [|k IH]; [done|].
  change (frames (S (S k)) window)
    with (frame_events window ++ frames (S k) window).
  rewrite IH at 1. by rewrite app_assoc.
Qed.

Lemma find_seq_succ (f : nat → bool) a n :
  List.find f (seq (S a) n) = S <$> List.find (λ k, f (S k)) (seq a n).
Proof.
  revert a. induction n as [|n IH]; intros a; [done|].
  cbn. destruct (f (S a)); [done|]. apply IH.
Qed.

Lemma find_ext {A} (f g : A → bool) l :
  (∀ x, f x = g x) → List.find f l = List.find g l.
Proof.
  intros Hfg. induction l as [|x l IH]; [done|].
  cbn. by rewrite Hfg, IH.
Qed.

Lemma close_requested_succ w window h k :
  close_requested w window h (S k)
  = close_requested w window (h ++ frame_events window) k.
Proof.
  unfold close_requested.
  change (frames (S k) window) with (frame_events window ++ frames k window).
  by rewrite app_assoc.
Qed.

Section RenderLoop.
Context (w : World).

Lemma render_frame_run window h :
  render_frame window h
  = (tt, h ++ [ Ev_glClearColor 0.5%Q 0.5%Q 0.5%Q 0%Q;
                Ev_glClear (Z.lor GL_COLOR_BUFFER_BIT GL_DEPTH_BUFFER_BIT);
                Ev_glDrawArrays GL_TRIANGLE_STRIP 0 4;
                Ev_glfwSwapBuffers window;
                Ev_glfwPollEvents ]).
Proof.
  unfold render_frame. autounfold with calls. unfold bind, emit.
  by rewrite <- !app_assoc.
Qed.

(** The loop runs whole frames until the window first reports a close
    request, or until the fuel is used up. *)
Lemma render_loop_run fuel window h :
  render_loop w fuel window h
  = match first_close w window h fuel with
    | Some k =>
        (true,
         h ++ frames k window
           ++ [Ev_glfwWindowShouldClose window
                 (w_glfwWindowShouldClose w (h ++ frames k window) window)])
    | None => (false, h ++ frames fuel window)
    end.
Proof.
  unfold first_close. revert h.
  induction fuel as [|fuel IH]; intros h.
  { cbn. unfold ret. by rewrite app_nil_r. }
  cbn [render_loop seq List.find].
  unfold bind at 1, glfwWindowShouldClose, ask.
  unfold close_requested at 1. cbn [frames]. rewrite app_nil_r.
  destruct (w_glfwWindowShouldClose w h window =? 0) eqn:Hclose; cbn [negb].
  - apply Z.eqb_eq in Hclose. rewrite Hclose.
    unfold bind. rewrite render_frame_run.
    rewrite <- app_assoc. cbn [app].
    change (Ev_glfwWindowShouldClose window 0 :: _) with (frame_events window).
    rewrite IH, find_seq_succ.
    rewrite (find_ext _ _ _ (close_requested_succ w window h)).
    destruct (List.find _ _) as [k|]; cbn [fmap option_fmap option_map frames].
    + by rewrite <- !app_assoc.
    + by rewrite <- !app_assoc.
  - by rewrite app_nil_r.
Qed.

End RenderLoop.


(** ** [main] *)

Section Main.
Context (w : World).

Lemma produces_ShaderProgram vf ff h (P : Outcome GLuint → History → Prop) :
  (∀ a, P (ShaderProgram_outcome a)
          (ShaderProgram_trace vf ff (w_file w vf) (w_file w ff) a)) →
  produces (ShaderProgram w vf ff) h P.
Proof.
  intros HP. destruct (ShaderProgram_run w vf ff h) as (a & Ha & _).
  eexists _, _. split; [exact Ha | apply HP].
Qed.

Lemma produces_InitializeGeometry program_id h (P : unit → History → Prop) :
  (∀ vao vbo position_attrib tbo texcoord_attrib,
     P tt (InitializeGeometry_events program_id vao vbo position_attrib
             tbo texcoord_attrib)) →
  produces (InitializeGeometry w program_id) h P.
Proof.
  intros HP.
  destruct (InitializeGeometry_run w program_id h)
    as (vao & vbo & pa & tbo & ta & Hrun).
  eexists _, _. split; [exact Hrun | apply HP].
Qed.

Lemma produces_LoadImage image_file width height h
    (P : GLuint → History → Prop) :
  (∀ texture_id,
     let size := (width * height * 3) mod 2 ^ 32 in
     let got := bytes_obtained (w_file w image_file) size in
     P texture_id
       (LoadImage_events image_file width height size texture_id
          (bool_decide (is_Some (w_file w image_file))) got
          (got ++ replicate (Z.to_nat size - length got) x00))) →
  produces (LoadImage w image_file width height) h P.
Proof.
  intros HP.
  destruct (LoadImage_run w image_file width height h) as [id Hrun].
  eexists _, _. split; [exact Hrun | apply HP].
Qed.

Lemma produces_render_loop fuel window h (P : bool → History → Prop) :
  match first_close w window h fuel with
  | Some k =>
      P true (frames k window
              ++ [Ev_glfwWindowShouldClose window
                    (w_glfwWindowShouldClose w (h ++ frames k window) window)])
  | None => P false (frames fuel window)
  end →
  produces (render_loop w fuel window) h P.
Proof.
  intros HP. unfold produces. rewrite render_loop_run.
  destruct (first_close w window h fuel) as [k|]; eauto.
Qed.

Ltac ask_as x := apply produces_bind; apply produces_ask; intros x _.
Ltac emits := apply produces_bind; apply produces_emit.

(** Every run of [main] has one of the five shapes of [main_shape], and
    starts with [glfwInit], answered by the world. *)
Lemma main_run fuel h :
  ∃ r tr,
    main w fuel h = (r, h ++ tr) ∧
    main_shape w fuel h r tr ∧
    ∃ rest, tr = Ev_glfwInit (w_glfwInit w h) :: rest.
Proof.
  as_run. unfold main. autounfold with calls.
  apply produces_bind; apply produces_ask; intros init Hanswer.
  apply produces_impl
    with (P := λ b tr, main_shape w fuel h b ([Ev_glfwInit init] ++ tr)).
  { intros r tr Hshape. split; [exact Hshape|]. subst init. by eexists. }
  clear Hanswer. destruct (init =? 0) eqn:Hinit.
  { run_calls. cbn [app]. unfold main_shape. left. apply Z.eqb_eq in Hinit as ->. done. }
  apply Z.eqb_neq in Hinit.
  do 5 emits. ask_as window. destruct (window =? NULL) eqn:Hwindow.
  { run_calls. cbn [app]. unfold main_shape. right; left. apply Z.eqb_eq in Hwindow as ->.
    split; [done|]. by exists init. }
  apply Z.eqb_neq in Hwindow.
  do 2 emits. ask_as glew_init. ask_as supported.
  destruct (supported =? 0) eqn:Hsupported.
  { run_calls. cbn [app]. unfold main_shape. do 2 right; left. apply Z.eqb_eq in Hsupported as ->.
    split; [done|]. by exists init, window, glew_init. }
  apply Z.eqb_neq in Hsupported.
  apply produces_bind, produces_ShaderProgram; intros a.
  unfold ShaderProgram_outcome, ShaderProgram_trace.
  destruct (ShaderProgram_throws a) eqn:Hthrows.
  { apply produces_ret. unfold main_shape. do 3 right; left.
    split; [done|]. exists init, window, glew_init, supported, a.
    do 4 (split; [done|]).
    unfold context_events, window_events. by rewrite app_nil_r. }
  emits.
  apply produces_bind, produces_InitializeGeometry;
    intros vao vbo position_attrib tbo texcoord_attrib.
  apply produces_bind, produces_LoadImage; intros texture_id size got.
  ask_as texture_attrib. do 3 emits.
  apply produces_bind, produces_render_loop.
  set (s := {| su_init := init; su_window := window;
               su_glew_init := glew_init; su_supported := supported;
               su_shaders := a; su_vao := vao; su_vbo := vbo;
               su_position_attrib := position_attrib; su_tbo := tbo;
               su_texcoord_attrib := texcoord_attrib;
               su_texture_id := texture_id;
               su_texture_attrib := texture_attrib |}).
  match goal with
  | |- match first_close w window ?hh fuel with _ => _ end =>
      assert (hh = h ++ setup_events (w_file w) s) as ->
        by (rewrite <- !app_assoc; reflexivity)
  end.
  destruct (first_close w window _ fuel) as [k|] eqn:Hfirst.
  - run_calls. unfold main_shape. do 4 right. exists s.
    do 4 (split; [done|]). cbn zeta. change (su_window s) with window.
    rewrite Hfirst. split; [done|].
    rewrite <- (app_assoc h).
    unfold setup_events, context_events, window_events. subst s.
    cbn [su_init su_window su_glew_init su_supported su_shaders su_vao
         su_vbo su_position_attrib su_tbo su_texcoord_attrib su_texture_id
         su_texture_attrib].
    rewrite <- !app_assoc. reflexivity.
  - run_calls. unfold main_shape. do 4 right. exists s.
    do 4 (split; [done|]). cbn zeta. change (su_window s) with window.
    rewrite Hfirst. split; [done|].
    unfold setup_events, context_events, window_events. subst s.
    cbn [su_init su_window su_glew_init su_supported su_shaders su_vao
         su_vbo su_position_attrib su_tbo su_texcoord_attrib su_texture_id
         su_texture_attrib].
    rewrite <- !app_assoc, app_nil_r. reflexivity.
Qed.

End Main.


(** * [LoadImage] *)

Lemma length_zero_padded file size :
  0 ≤ size →
  let got := bytes_obtained file size in
  Z.of_nat (length (got ++ replicate (Z.to_nat size - length got) x00)) = size.
Proof.
  intros Hsize got. subst got.
  pose proof (length_bytes_obtained file size).
  rewrite length_app, length_replicate. lia.
Qed.

Section LoadImageProperties.
Context (w : World).

(** C2 (as amended): the destination buffer of [LoadImage] has exactly
    [(width*height*3) mod 2^32] bytes, the product being computed in
    32-bit unsigned arithmetic, which is [width*height*3] whenever that is
    below 2^32; the read is asked for exactly that many bytes and stores
    no more, so a short file never makes it overrun the buffer. *)
Theorem LoadImage_buffer_never_overrun image_file width height h :
  ∃ texture_id tr,
    LoadImage w image_file width height h = (texture_id, h ++ tr) ∧
    LoadImage_buffer_bound ((width * height * 3) mod 2 ^ 32) tr ∧
    (0 ≤ width * height * 3 < 2 ^ 32 →
     LoadImage_buffer_bound (width * height * 3) tr).
Proof.
  destruct (LoadImage_run w image_file width height h) as [id Hrun].
  cbn zeta in Hrun. eexists _, _. split; [exact Hrun|].
  set (size := (width * height * 3) mod 2 ^ 32) in *.
  assert (0 ≤ size) as Hsize by (apply Z.mod_pos_bound; lia).
  assert (LoadImage_buffer_bound size
            (LoadImage_events image_file width height size id
               (bool_decide (is_Some (w_file w image_file)))
               (bytes_obtained (w_file w image_file) size)
               (bytes_obtained (w_file w image_file) size
                ++ replicate (Z.to_nat size
                              - length (bytes_obtained (w_file w image_file) size))
                     x00))) as Hbound.
  { eexists _, _. split; [done|]. split; [done|]. split.
    - by apply length_zero_padded.
    - pose proof (length_bytes_obtained (w_file w image_file) size). lia. }
  split; [exact Hbound|].
  intros Hfits. replace (width * height * 3) with size; [exact Hbound|].
  unfold size. by apply Z.mod_small.
Qed.

(** C3 (as amended): [LoadImage] performs exactly the sequence
    [LoadImage_events]: it generates a texture name, sets linear
    magnification and minification filters, opens the file in binary
    mode, asks it for exactly [(width*height*3) mod 2^32] bytes, the
    product being computed in 32-bit unsigned arithmetic, and obtains
    them, or all the bytes of a file that is shorter; it uploads the
    buffer of that size as an RGB texture of unsigned bytes at level 0
    and returns the texture name.  Nothing else is read, and nothing is
    printed whatever the file holds. *)
Theorem LoadImage_sequence image_file width height h :
  ∃ texture_id tr got pixels,
    LoadImage w image_file width height h = (texture_id, h ++ tr) ∧
    tr = LoadImage_events image_file width height
           ((width * height * 3) mod 2 ^ 32) texture_id
           (bool_decide (is_Some (w_file w image_file))) got pixels ∧
    got = bytes_obtained (w_file w image_file) ((width * height * 3) mod 2 ^ 32) ∧
    pixels
    = got ++ replicate (Z.to_nat ((width * height * 3) mod 2 ^ 32) - length got) x00 ∧
    Z.of_nat (length pixels) = (width * height * 3) mod 2 ^ 32 ∧
    (∀ data,
       w_file w image_file = Some data →
       (width * height * 3) mod 2 ^ 32 ≤ Z.of_nat (length data) →
       Z.of_nat (length got) = (width * height * 3) mod 2 ^ 32 ∧
       got = take (length got) data ∧
       pixels = got) ∧
    (∀ data,
       w_file w image_file = Some data →
       Z.of_nat (length data) < (width * height * 3) mod 2 ^ 32 →
       got = data) ∧
    diagnostics tr = [] ∧
    printed tr = [].
Proof.
  destruct (LoadImage_run w image_file width height h) as [id Hrun].
  cbn zeta in Hrun.
  set (size := (width * height * 3) mod 2 ^ 32) in *.
  assert (0 ≤ size) as Hsize by (apply Z.mod_pos_bound; lia).
  exists id. eexists. exists (bytes_obtained (w_file w image_file) size).
  eexists. split; [exact Hrun|].
  do 3 (split; [done|]).
  split; [by apply length_zero_padded|].
  split; [|split; [|done]].
  - intros data Hfile Hlong. rewrite Hfile. cbn [bytes_obtained].
    assert (length (take (Z.to_nat size) data) = Z.to_nat size) as Hlen
      by (rewrite length_take; lia).
    rewrite Hlen, Nat.sub_diag. split; [lia|].
    split; [done|]. cbn [replicate]. by rewrite app_nil_r.
  - intros data Hfile Hshort. rewrite Hfile. cbn [bytes_obtained].
    apply take_ge. lia.
Qed.

(** C9 (as amended): the pixel buffer has [(width*height*3) mod 2^32]
    bytes and starts out as zeros, so whatever the file (a short one, or
    none at all) the uploaded buffer is the bytes actually read followed
    by zeros up to that size: every byte of it past the bytes read is
    zero. *)
Theorem LoadImage_tail_is_zero image_file width height h :
  ∃ texture_id tr got pixels,
    LoadImage w image_file width height h = (texture_id, h ++ tr) ∧
    read_requests tr = [((width * height * 3) mod 2 ^ 32, got)] ∧
    uploaded_pixels tr = [pixels] ∧
    got = bytes_obtained (w_file w image_file) ((width * height * 3) mod 2 ^ 32) ∧
    Z.of_nat (length pixels) = (width * height * 3) mod 2 ^ 32 ∧
    pixels
    = got ++ replicate (Z.to_nat ((width * height * 3) mod 2 ^ 32) - length got) x00 ∧
    (∀ i, (length got ≤ i)%nat →
          Z.of_nat i < (width * height * 3) mod 2 ^ 32 →
          pixels !! i = Some x00) ∧
    (∀ data,
       w_file w image_file = Some data →
       Z.of_nat (length data) < (width * height * 3) mod 2 ^ 32 →
       got = data) ∧
    (w_file w image_file = None →
     got = [] ∧
     pixels = replicate (Z.to_nat ((width * height * 3) mod 2 ^ 32)) x00) ∧
    (0 ≤ width * height * 3 < 2 ^ 32 →
     (width * height * 3) mod 2 ^ 32 = width * height * 3).
Proof.
  destruct (LoadImage_run w image_file width height h) as [id Hrun].
  cbn zeta in Hrun.
  set (size := (width * height * 3) mod 2 ^ 32) in *.
  assert (0 ≤ size) as Hsize by (apply Z.mod_pos_bound; lia).
  set (got := bytes_obtained (w_file w image_file) size) in *.
  set (pixels := got ++ replicate (Z.to_nat size - length got) x00) in *.
  exists id. eexists. exists got, pixels. split; [exact Hrun|].
  do 3 (split; [done|]).
  split; [by apply length_zero_padded|]. split; [done|].
  split; [|split; [|split]].
  - intros i Hlo Hhi. unfold pixels. rewrite lookup_app_r by done.
    apply lookup_replicate_2. lia.
  - intros data Hfile Hshort. unfold got. rewrite Hfile.
    cbn [bytes_obtained]. apply take_ge. lia.
  - intros Hnone. unfold pixels, got. rewrite Hnone. cbn.
    by rewrite Nat.sub_0_r.
  - intros Hfits. by apply Z.mod_small.
Qed.

End LoadImageProperties.

(** C2: a 65536 by 65536 image needs 12884901888 bytes, yet the buffer
    [LoadImage] allocates for it is empty and the read asks for 0 bytes. *)
Lemma LoadImage_buffer_wraps_around :
  read_requests
    (LoadImage (working_world (one_file "lena.rgb" [x01; x02; x03]) 0)
       "lena.rgb" 65536 65536 []).2 = [(0, [])] ∧
  uploaded_pixels
    (LoadImage (working_world (one_file "lena.rgb" [x01; x02; x03]) 0)
       "lena.rgb" 65536 65536 []).2 = [[]] ∧
  ¬ LoadImage_buffer_bound (65536 * 65536 * 3)
      (LoadImage (working_world (one_file "lena.rgb" [x01; x02; x03]) 0)
         "lena.rgb" 65536 65536 []).2.
Proof.
  split; [by vm_compute|]. split; [by vm_compute|].
  intros (got & pixels & Hread & _). vm_compute in Hread. discriminate Hread.
Qed.

(** C3: for a 1431655767 by 1 image and a file of 3 bytes, [LoadImage]
    does not read 1431655767*1*3 = 4294967301 bytes: it asks the file for 5
    bytes and obtains 3. *)
Lemma LoadImage_sequence_wraps_around :
  LoadImage (working_world (one_file "lena.rgb" [x01; x02; x03]) 0)
    "lena.rgb" 1431655767 1 []
  = (1, LoadImage_events "lena.rgb" 1431655767 1 5 1 true [x01; x02; x03]
          [x01; x02; x03; x00; x00]) ∧
  1431655767 * 1 * 3 = 4294967301 ∧
  ∀ texture_id is_open got pixels,
    LoadImage_events "lena.rgb" 1431655767 1 5 1 true [x01; x02; x03]
      [x01; x02; x03; x00; x00]
    ≠ LoadImage_events "lena.rgb" 1431655767 1 (1431655767 * 1 * 3)
        texture_id is_open got pixels.
Proof.
  split; [by vm_compute|]. split; [done|].
  intros texture_id is_open got pixels H. unfold LoadImage_events in H.
  by simplify_eq.
Qed.

(** C9: for a 1431655766 by 1 image, which needs 4294967298 bytes, and a
    file of 3 bytes, the buffer that is uploaded has 2 bytes, both read from
    the file: the texture has no byte at position 2, where a zero is
    claimed. *)
Lemma LoadImage_tail_is_cut_off :
  read_requests
    (LoadImage (working_world (one_file "lena.rgb" [x01; x02; x03]) 0)
       "lena.rgb" 1431655766 1 []).2 = [(2, [x01; x02])] ∧
  uploaded_pixels
    (LoadImage (working_world (one_file "lena.rgb" [x01; x02; x03]) 0)
       "lena.rgb" 1431655766 1 []).2 = [[x01; x02]] ∧
  Z.of_nat (length [x01; x02; x03]) < 1431655766 * 1 * 3 ∧
  (length [x01; x02] ≤ 2)%nat ∧
  2 < 1431655766 * 1 * 3 ∧
  [x01; x02] !! 2%nat ≠ Some x00.
Proof.
  split; [by vm_compute|]. split; [by vm_compute|].
  split; [done|]. split; [done|]. split; [done|]. done.
Qed.


(** * Unchecked lookups and files *)


(** The two sources handed to [glShaderSource], on every path. *)
Lemma shader_sources_ShaderProgram_trace vf ff vfile ffile a :
  shader_sources (ShaderProgram_trace vf ff vfile ffile a)
  = [ (sa_vertex_shader_id a, c_str (istreambuf_all vfile));
      (sa_fragment_shader_id a, c_str (istreambuf_all ffile)) ].
Proof.
  by all_paths a.
Qed.


Section Unchecked.
Context (w : World).

(** C8: [InitializeGeometry] looks both shader inputs up by name in the
    given program and hands whatever location comes back to
    [glVertexAttribPointer] and [glEnableVertexAttribArray], converted to
    [GLuint]; it prints nothing and returns normally even when the
    location is the sentinel -1, which goes on as 4294967295. *)
Theorem InitializeGeometry_lookups_unchecked program_id h :
  ∃ vao vbo position_attrib tbo texcoord_attrib tr,
    InitializeGeometry w program_id h = (tt, h ++ tr) ∧
    tr = InitializeGeometry_events program_id vao vbo position_attrib
           tbo texcoord_attrib ∧
    diagnostics tr = [] ∧
    printed tr = [] ∧
    (position_attrib = -1 →
     Ev_glVertexAttribPointer 4294967295 2 GL_FLOAT GL_FALSE 0 0 ∈ tr ∧
     Ev_glEnableVertexAttribArray 4294967295 ∈ tr) ∧
    (texcoord_attrib = -1 →
     Ev_glVertexAttribPointer 4294967295 2 GL_FLOAT GL_FALSE 0 0 ∈ tr ∧
     Ev_glEnableVertexAttribArray 4294967295 ∈ tr).
Proof.
  destruct (InitializeGeometry_run w program_id h)
    as (vao & vbo & pa & tbo & ta & Hrun).
  exists vao, vbo, pa, tbo, ta. eexists. split; [exact Hrun|].
  do 3 (split; [done|]).
  split; intros ->; unfold InitializeGeometry_events;
    change (u32 (-1)) with 4294967295; set_solver.
Qed.


End Unchecked.


(** * The render loop and the exit code *)

Lemma find_seq_spec (f : nat → bool) a n :
  match List.find f (seq a n) with
  | Some k =>
      (a ≤ k < a + n)%nat ∧ f k = true ∧ ∀ j, (a ≤ j < k)%nat → f j = false
  | None => ∀ j, (a ≤ j < a + n)%nat → f j = false
  end.
Proof.
  revert a. induction n as [|n IH]; intros a; cbn.
  { intros j Hj. lia. }
  destruct (f a) eqn:Hfa.
  { split; [lia|]. split; [done|]. intros j Hj. lia. }
  specialize (IH (S a)). destruct (List.find f (seq (S a) n)) as [k|].
  - destruct IH as (Hk & Hfk & Hbefore). split; [lia|]. split; [done|].
    intros j Hj. destruct (decide (j = a)) as [->|]; [done|].
    apply Hbefore. lia.
  - intros j Hj. destruct (decide (j = a)) as [->|]; [done|].
    apply IH. lia.
Qed.

Lemma ends_with_app_l pre suffix tr :
  ends_with suffix tr → ends_with suffix (pre ++ tr).
Proof. intros [p ->]. exists (pre ++ p). by rewrite app_assoc. Qed.

Lemma ends_with_cons e suffix tr :
  ends_with suffix tr → ends_with suffix (e :: tr).
Proof. intros [p ->]. by exists (e :: p). Qed.

(** Looks for a suffix in an explicit history. *)
Ltac find_suffix :=
  solve [repeat first [ by exists [] | apply ends_with_cons ]].

Lemma frames_ends_with k window :
  ends_with [Ev_glfwSwapBuffers window; Ev_glfwPollEvents]
    (frames (S k) window).
Proof.
  rewrite frames_snoc. apply ends_with_app_l.
  by exists [ Ev_glfwWindowShouldClose window 0;
              Ev_glClearColor 0.5%Q 0.5%Q 0.5%Q 0%Q;
              Ev_glClear (Z.lor GL_COLOR_BUFFER_BIT GL_DEPTH_BUFFER_BIT);
              Ev_glDrawArrays GL_TRIANGLE_STRIP 0 4 ].
Qed.

Lemma setup_events_ends_with files s :
  ends_with [Ev_glActiveTexture (GL_TEXTURE0 + 0);
             Ev_glBindTexture GL_TEXTURE_2D (su_texture_id s)]
    (setup_events files s).
Proof.
  unfold setup_events. cbn zeta.
  do 5 apply ends_with_app_l.
  by eexists [_; _].
Qed.

Lemma setup_events_head files s :
  ∃ rest, setup_events files s = Ev_glfwInit (su_init s) :: rest.
Proof. by eexists. Qed.





(** ** How a history ends *)

Lemma ending_of_app2 pre a b : ending_of (pre ++ [a; b]) = ending_of [a; b].
Proof.
  unfold ending_of. rewrite reverse_app.
  change (reverse [a; b]) with [b; a]. cbn [app].
  destruct b; try reflexivity; destruct a; reflexivity.
Qed.

Lemma normal_closure_ending tr : normal_closure tr → ending_of tr = Closed.
Proof. intros (window & answer & _ & pre & ->). by rewrite ending_of_app2. Qed.

Lemma aborted_at_log_buffer_ending tr :
  aborted_at_log_buffer tr → ending_of tr = AtLogLength.
Proof.
  intros (len & _ & [[shader [pre ->]]|[program [pre ->]]]);
    by rewrite ending_of_app2.
Qed.

Lemma still_running_ending fuel tr : still_running fuel tr → ending_of tr = InLoop.
Proof.
  intros (texture & window & pre & ->). destruct fuel as [|fuel].
  - unfold ending_of. by rewrite reverse_app.
  - destruct (frames_ends_with fuel window) as [pre' ->].
    by rewrite app_comm_cons, app_assoc, ending_of_app2.
Qed.

(** ** Answers that mean the initialisation failed *)

Lemma cannot_initialize_existsb tr :
  cannot_initialize tr ↔ existsb is_init_failure tr = true.
Proof.
  rewrite existsb_exists. split.
  - intros [Hin|[(width & height & title & monitor & share & Hin)|Hin]];
      apply list_elem_of_In in Hin; eexists; (split; [exact Hin|done]).
  - intros (e & Hin & He). apply list_elem_of_In in Hin.
    destruct e; try discriminate He; cbn in He.
    + apply Z.eqb_eq in He as ->. by left.
    + apply Z.eqb_eq in He as ->. right; left. by eexists _, _, _, _, _.
    + apply andb_true_iff in He as [Hname Hret].
      apply String.eqb_eq in Hname as ->. apply Z.eqb_eq in Hret as ->.
      by do 2 right.
Qed.

Lemma existsb_frames f k window :
  existsb f (frame_events window) = false →
  existsb f (frames k window) = false.
Proof.
  intros Hframe. induction k as [|k IH]; [done|].
  cbn [frames]. by rewrite existsb_app, Hframe, IH.
Qed.

Lemma existsb_context_events init window glew_init supported :
  init ≠ 0 → window ≠ NULL → supported ≠ 0 →
  existsb is_init_failure (context_events init window glew_init supported)
  = false.
Proof.
  intros Hinit Hwindow Hsupported. cbn.
  apply Z.eqb_neq in Hinit, Hwindow, Hsupported.
  by rewrite Hinit, Hwindow, Hsupported.
Qed.

Lemma existsb_ShaderProgram_events vf ff vfile ffile a :
  existsb is_init_failure (ShaderProgram_events vf ff vfile ffile a) = false.
Proof.
  unfold ShaderProgram_events, report_events.
  by destruct (_ =? _), (_ =? _), (_ =? _).
Qed.

Lemma existsb_ShaderProgram_thrown_events vf ff vfile ffile a :
  existsb is_init_failure (ShaderProgram_thrown_events vf ff vfile ffile a)
  = false.
Proof.
  unfold ShaderProgram_thrown_events, report_events.
  by destruct (log_too_long _ _), (sa_vertex_status a =? GL_FALSE),
    (sa_fragment_status a =? GL_FALSE).
Qed.

Lemma existsb_setup_events files s :
  su_init s ≠ 0 → su_window s ≠ NULL → su_supported s ≠ 0 →
  existsb is_init_failure (setup_events files s) = false.
Proof.
  intros Hinit Hwindow Hsupported. unfold setup_events. cbn zeta.
  rewrite !existsb_app, existsb_context_events, existsb_ShaderProgram_events
    by done.
  done.
Qed.

(** A run of [ShaderProgram] that is ended by the exception stops right
    after the query of the length of a log that a failed status asked
    for, and the length is more than a [std::string] can hold. *)
Lemma ShaderProgram_thrown_events_end vf ff vfile ffile a :
  ShaderProgram_throws a = true →
  let tr := ShaderProgram_thrown_events vf ff vfile ffile a in
  aborted_at_log_buffer tr ∧
  ∃ e1 e2, ends_with [e1; e2] tr ∧ ending_of [e1; e2] = AtLogLength.
Proof.
  destruct a as [vs fs sv lv gv sf lf gf prog sl ll gl].
  unfold ShaderProgram_throws, ShaderProgram_thrown_events, report_events,
    log_too_long, aborted_at_log_buffer.
  cbn [sa_vertex_status sa_fragment_status sa_link_status sa_program_id
       sa_vertex_shader_id sa_fragment_shader_id sa_vertex_log_length
       sa_vertex_log sa_fragment_log_length sa_fragment_log
       sa_link_log_length sa_program_log].
  destruct (sf =? GL_FALSE) eqn:Hsf,
    (std_string_max_size <? u64 lf) eqn:Hlf; cbn [andb orb].
  1: intros _.
  2-4: intros [Hsl Hll]%andb_true_iff.
  1: apply Z.eqb_eq in Hsf as ->; apply Z.ltb_lt in Hlf.
  2-4: apply Z.eqb_eq in Hsl as ->; apply Z.ltb_lt in Hll.
  all: destruct (sv =? GL_FALSE); cbn [app].
  all: (split;
        [ eexists; split; [eassumption|];
          first [ left; eexists; find_suffix | right; eexists; find_suffix ]
        | eexists _, _; split; [find_suffix | reflexivity] ]).
Qed.

Section LoopAndExit.
Context (w : World).

(** What [first_close] finds. *)
Lemma first_close_spec window h fuel :
  match first_close w window h fuel with
  | Some k =>
      (k < fuel)%nat ∧
      w_glfwWindowShouldClose w (h ++ frames k window) window ≠ 0 ∧
      ∀ j, (j < k)%nat →
           w_glfwWindowShouldClose w (h ++ frames j window) window = 0
  | None =>
      ∀ j, (j < fuel)%nat →
           w_glfwWindowShouldClose w (h ++ frames j window) window = 0
  end.
Proof.
  unfold first_close.
  pose proof (find_seq_spec (close_requested w window h) 0 fuel) as Hfind.
  assert (∀ j, close_requested w window h j = false →
               w_glfwWindowShouldClose w (h ++ frames j window) window = 0)
    as Hfalse.
  { unfold close_requested. intros j Hj.
    apply negb_false_iff in Hj. by apply Z.eqb_eq. }
  destruct (List.find _ _) as [k|].
  - destruct Hfind as (Hk & Hfk & Hbefore). split; [lia|]. split.
    + unfold close_requested in Hfk. apply negb_true_iff in Hfk.
      by apply Z.eqb_neq.
    + intros j Hj. apply Hfalse, Hbefore. lia.
  - intros j Hj. apply Hfalse, Hfind. lia.
Qed.

(** C7: every iteration of the render loop sets the gray clear colour,
    clears the colour and depth buffers, draws one triangle strip of 4
    vertices, swaps the buffers and polls the events; the loop runs such
    iterations until the window first reports a close request and is left
    for no other reason. *)
Theorem render_loop_frames fuel window h :
  render_frame window h
  = (tt, h ++ [ Ev_glClearColor 0.5%Q 0.5%Q 0.5%Q 0%Q;
                Ev_glClear (Z.lor GL_COLOR_BUFFER_BIT GL_DEPTH_BUFFER_BIT);
                Ev_glDrawArrays GL_TRIANGLE_STRIP 0 4;
                Ev_glfwSwapBuffers window;
                Ev_glfwPollEvents ]) ∧
  frame_events window
  = [ Ev_glfwWindowShouldClose window 0;
      Ev_glClearColor 0.5%Q 0.5%Q 0.5%Q 0%Q;
      Ev_glClear (Z.lor GL_COLOR_BUFFER_BIT GL_DEPTH_BUFFER_BIT);
      Ev_glDrawArrays GL_TRIANGLE_STRIP 0 4;
      Ev_glfwSwapBuffers window;
      Ev_glfwPollEvents ] ∧
  match first_close w window h fuel with
  | Some k =>
      render_loop w fuel window h
      = (true,
         h ++ frames k window
           ++ [Ev_glfwWindowShouldClose window
                 (w_glfwWindowShouldClose w (h ++ frames k window) window)]) ∧
      (k < fuel)%nat ∧
      w_glfwWindowShouldClose w (h ++ frames k window) window ≠ 0 ∧
      ∀ j, (j < k)%nat →
           w_glfwWindowShouldClose w (h ++ frames j window) window = 0
  | None =>
      render_loop w fuel window h = (false, h ++ frames fuel window) ∧
      ∀ j, (j < fuel)%nat →
           w_glfwWindowShouldClose w (h ++ frames j window) window = 0
  end.
Proof.
  split; [apply render_frame_run|]. split; [done|].
  pose proof (render_loop_run w fuel window h) as Hrun.
  pose proof (first_close_spec window h fuel) as Hspec.
  destruct (first_close w window h fuel) as [k|]; by split.
Qed.

(** How a run of [main] ends, read off its result and off its calls. *)
Lemma main_endings fuel h r tr :
  main w fuel h = (r, h ++ tr) →
  (∃ rest, tr = Ev_glfwInit (w_glfwInit w h) :: rest) ∧
  (r = Some (Returned EXIT_SUCCESS) ↔ normal_closure tr) ∧
  (r = Some (Returned EXIT_FAILURE) ↔ cannot_initialize tr) ∧
  (cannot_initialize tr → init_failed tr) ∧
  (r = Some (Thrown std_length_error) ↔ aborted_at_log_buffer tr) ∧
  (r = None ↔ still_running fuel tr) ∧
  (r = Some (Returned EXIT_SUCCESS) ∨ r = Some (Returned EXIT_FAILURE) ∨
   r = Some (Thrown std_length_error) ∨ r = None) ∧
  EXIT_SUCCESS = 0 ∧ EXIT_FAILURE ≠ 0.
Proof.
  intros Hrun.
  destruct (main_run w fuel h) as (r' & tr' & Hrun' & Hshape & Hfirst).
  rewrite Hrun in Hrun'. injection Hrun' as <- Htr.
  apply app_inv_head in Htr as <-.
  split; [exact Hfirst|].
  assert (∃ ending failed,
            ending_of tr = ending ∧
            existsb is_init_failure tr = failed ∧
            match r with
            | Some (Returned code) =>
                if failed then
                  code = EXIT_FAILURE ∧ ending = Stopped ∧ init_failed tr
                else
                  code = EXIT_SUCCESS ∧ ending = Closed ∧ normal_closure tr
            | Some (Thrown e) =>
                e = std_length_error ∧ failed = false ∧
                ending = AtLogLength ∧ aborted_at_log_buffer tr
            | None =>
                failed = false ∧ ending = InLoop ∧ still_running fuel tr
            end) as (ending & failed & Hending & Hfailed & Hr).
  { clear Hrun Hfirst.
    destruct Hshape as [[-> ->]|[[-> (init & Hinit & ->)]|
      [[-> (init & window & glew_init & Hinit & Hwindow & ->)]|
       [[-> (init & window & glew_init & supported & a
             & Hinit & Hwindow & Hsupported & Hthrows & ->)]|
        (s & Hinit & Hwindow & Hsupported & Hthrows & Hloop)]]]].
    - exists Stopped, true. do 2 (split; [done|]). do 2 (split; [done|]).
      left. by eexists.
    - exists Stopped, true. split; [by rewrite ending_of_app2|].
      split.
      { rewrite existsb_app. apply orb_true_iff. left.
        unfold window_events. cbn. by destruct (init =? 0). }
      do 2 (split; [done|]). right; left. eexists _, _, _, _, _, _.
      by eexists [_; _; _; _; _; _].
    - exists Stopped, true. split; [by rewrite ending_of_app2|].
      split.
      { rewrite existsb_app. apply orb_true_iff. left.
        unfold context_events. rewrite existsb_app. apply orb_true_iff.
        by right. }
      do 2 (split; [done|]). do 2 right. eexists.
      unfold context_events. rewrite <- app_assoc.
      apply ends_with_app_l. by eexists [_; _; _].
    - destruct (ShaderProgram_thrown_events_end "gl_texture.vert"
                  "gl_texture.frag" (w_file w "gl_texture.vert")
                  (w_file w "gl_texture.frag") a Hthrows)
        as (Haborted & e1 & e2 & [pre Hends] & Hkind).
      exists AtLogLength, false. split.
      { rewrite Hends, app_assoc, ending_of_app2. exact Hkind. }
      split.
      { rewrite existsb_app, existsb_context_events,
          existsb_ShaderProgram_thrown_events by done. done. }
      do 3 (split; [done|]).
      destruct Haborted as (len & Hlen & Hlast). exists len.
      split; [exact Hlen|].
      destruct Hlast as [[shader Hlast]|[program Hlast]]; [left|right];
        eexists; apply ends_with_app_l; exact Hlast.
    - cbn zeta in Hloop.
      assert (existsb is_init_failure (setup_events (w_file w) s) = false)
        as Hsetup by (by apply existsb_setup_events).
      pose proof (first_close_spec (su_window s)
                    (h ++ setup_events (w_file w) s) fuel) as Hspec.
      destruct (first_close w _ _ fuel) as [k|].
      + destruct Hloop as [-> ->]. destruct Hspec as (_ & Hanswer & _).
        rewrite <- app_assoc in Hanswer.
        exists Closed, false. split.
        { by rewrite !app_assoc, ending_of_app2. }
        split.
        { rewrite !existsb_app, Hsetup, existsb_frames by done. done. }
        do 2 (split; [done|]).
        eexists _, _. split; [exact Hanswer|].
        do 2 apply ends_with_app_l. by exists [].
      + destruct Hloop as [-> ->]. exists InLoop, false. split.
        { destruct fuel as [|fuel].
          - rewrite app_nil_r.
            destruct (setup_events_ends_with (w_file w) s) as [pre ->].
            by rewrite ending_of_app2.
          - destruct (frames_ends_with fuel (su_window s)) as [pre ->].
            by rewrite app_assoc, ending_of_app2. }
        split.
        { rewrite !existsb_app, Hsetup, existsb_frames by done. done. }
        do 2 (split; [done|]).
        exists (su_texture_id s), (su_window s).
        destruct (setup_events_ends_with (w_file w) s) as [pre ->].
        exists (pre ++ [Ev_glActiveTexture (GL_TEXTURE0 + 0)]).
        by rewrite <- !app_assoc. }
  rewrite cannot_initialize_existsb, Hfailed.
  assert (EXIT_SUCCESS ≠ EXIT_FAILURE) as Hcodes by done.
  destruct r as [[code|e]|], failed; cbn iota in Hr.
  - (* EXIT_FAILURE *)
    destruct Hr as (-> & -> & Hinit).
    split; [|split; [|split; [|split; [|split; [|split; [auto|done]]]]]].
    + split; [intros [= H]; done|].
      intros H%normal_closure_ending. by rewrite Hending in H.
    + done.
    + done.
    + split; [done|].
      intros H%aborted_at_log_buffer_ending. by rewrite Hending in H.
    + split; [done|].
      intros H%still_running_ending. by rewrite Hending in H.
  - (* EXIT_SUCCESS *)
    destruct Hr as (-> & -> & Hclosed).
    split; [|split; [|split; [|split; [|split; [|split; [auto|done]]]]]].
    + done.
    + split; [intros [= H]; done|done].
    + done.
    + split; [done|].
      intros H%aborted_at_log_buffer_ending. by rewrite Hending in H.
    + split; [done|].
      intros H%still_running_ending. by rewrite Hending in H.
  - by destruct Hr as (_ & ? & _).
  - (* the exception *)
    destruct Hr as (-> & _ & -> & Haborted).
    split; [|split; [|split; [|split; [|split; [|split; [auto|done]]]]]].
    + split; [done|].
      intros H%normal_closure_ending. by rewrite Hending in H.
    + done.
    + done.
    + done.
    + split; [done|].
      intros H%still_running_ending. by rewrite Hending in H.
  - by destruct Hr as (? & _).
  - (* still in the loop *)
    destruct Hr as (_ & -> & Hrunning).
    split; [|split; [|split; [|split; [|split; [|split; [auto|done]]]]]].
    + split; [done|].
      intros H%normal_closure_ending. by rewrite Hending in H.
    + done.
    + done.
    + split; [done|].
      intros H%aborted_at_log_buffer_ending. by rewrite Hending in H.
    + done.
Qed.

(** C4: [main] returns [EXIT_SUCCESS], which is 0, exactly when the render
    loop was left on a close request, and [EXIT_FAILURE], which is not 0,
    exactly when [glfwInit] returned 0, [glfwCreateWindow] returned no
    window or GLEW does not support OpenGL 3.3, and then right after
    reporting it.  The two other runs have no exit code: the one that an
    exception thrown in [ShaderProgram] ends, and the one that is still
    in its loop after [fuel] iterations, having never been told to
    close.  The first answer is that of [glfwInit] in the world. *)
Theorem main_exit_code fuel h :
  ∃ r tr,
    main w fuel h = (r, h ++ tr) ∧
    (∃ rest, tr = Ev_glfwInit (w_glfwInit w h) :: rest) ∧
    (r = Some (Returned EXIT_SUCCESS) ↔ normal_closure tr) ∧
    (r = Some (Returned EXIT_FAILURE) ↔ cannot_initialize tr) ∧
    (cannot_initialize tr → init_failed tr) ∧
    (r = Some (Thrown std_length_error) ↔ aborted_at_log_buffer tr) ∧
    (r = None ↔ still_running fuel tr) ∧
    (r = Some (Returned EXIT_SUCCESS) ∨ r = Some (Returned EXIT_FAILURE) ∨
     r = Some (Thrown std_length_error) ∨ r = None) ∧
    EXIT_SUCCESS = 0 ∧ EXIT_FAILURE ≠ 0.
Proof.
  destruct (main_run w fuel h) as (r & tr & Hrun & _).
  exists r, tr. split; [exact Hrun|]. by apply main_endings.
Qed.

End LoopAndExit.

(** * The quad *)

Lemma frames_begun_app tr1 tr2 :
  frames_begun (tr1 ++ tr2) = (frames_begun tr1 + frames_begun tr2)%nat.
Proof. unfold frames_begun. by rewrite List.filter_app, length_app. Qed.

Lemma frames_begun_frames k window : frames_begun (frames k window) = k.
Proof.
  induction k as [|k IH]; [done|].
  cbn [frames]. rewrite frames_begun_app, IH. done.
Qed.

Lemma frames_begun_ShaderProgram_events vf ff vfile ffile a :
  frames_begun (ShaderProgram_events vf ff vfile ffile a) = 0%nat.
Proof.
  unfold ShaderProgram_events, report_events.
  by destruct (_ =? _), (_ =? _), (_ =? _).
Qed.

Lemma frames_begun_setup_events files s :
  frames_begun (setup_events files s) = 0%nat.
Proof.
  unfold setup_events. cbn zeta.
  by rewrite !frames_begun_app, frames_begun_ShaderProgram_events.
Qed.


Lemma frames_begun_ShaderProgram_thrown_events vf ff vfile ffile a :
  frames_begun (ShaderProgram_thrown_events vf ff vfile ffile a) = 0%nat.
Proof.
  unfold ShaderProgram_thrown_events, report_events.
  by destruct (log_too_long _ _), (sa_vertex_status a =? GL_FALSE),
    (sa_fragment_status a =? GL_FALSE).
Qed.

Lemma frames_begun_closing window answer :
  answer ≠ 0 →
  frames_begun [Ev_glfwWindowShouldClose window answer; Ev_glfwTerminate]
  = 0%nat.
Proof. intros Hanswer%Z.eqb_neq. unfold frames_begun. cbn. by rewrite Hanswer. Qed.


Section Quad.
Context (w : World).


End Quad.


(** * Concrete runs *)

(** A run of [main] in which everything works and the window is closed
    after two frames: the exit code is [EXIT_SUCCESS]. *)
Example main_closes_after_two_frames :
  (main (working_world no_files 2) 5 []).1 = Some (Returned EXIT_SUCCESS) ∧
  draw_calls (main (working_world no_files 2) 5 []).2
  = [(GL_TRIANGLE_STRIP, 0, 4); (GL_TRIANGLE_STRIP, 0, 4)].
Proof. by vm_compute. Qed.

(** The same run with too little fuel is still in its loop. *)
Example main_still_running :
  (main (working_world no_files 2) 2 []).1 = None.
Proof. by vm_compute. Qed.

(** With no file and a driver that rejects everything, [ShaderProgram]
    prints the three logs and still returns the program name. *)
Example ShaderProgram_in_failing_world :
  (ShaderProgram failing_world "gl_texture.vert" "gl_texture.frag" []).1
  = Returned 2 ∧
  printed (ShaderProgram failing_world "gl_texture.vert" "gl_texture.frag" []).2
  = [ "Compiling Vertex Shader ..."; String.append "bad" (String Ascii.zero "");
      "Compiling Fragment Shader ..."; String.append "bad" (String Ascii.zero "");
      "Linking Shader Program ..."; String.append "bad" (String Ascii.zero "") ].
Proof. by vm_compute. Qed.

(** With a driver that rejects the fragment shader and reports -1 as the
    length of its log, [main] is ended by the exception: no exit code, no
    window closed, nothing drawn. *)
Example main_aborted :
  (main (negative_length_world true) 5 []).1 = Some (Thrown std_length_error) ∧
  count_calls "glfwTerminate" (main (negative_length_world true) 5 []).2 = 0%nat ∧
  draw_calls (main (negative_length_world true) 5 []).2 = [].
Proof. by vm_compute. Qed.

(** C1: the driver rejects the fragment shader and reports -1 as the length
    of its log.  [ShaderProgram] does not return: it is ended by
    [std::length_error] right after the query of the length, before any
    log is fetched and before the program is even created. *)
Lemma ShaderProgram_aborts_on_negative_length :
  ShaderProgram (negative_length_world true) "gl_texture.vert"
    "gl_texture.frag" []
  = (Thrown std_length_error,
     [ Ev_glCreateShader GL_VERTEX_SHADER 1;
       Ev_glCreateShader GL_FRAGMENT_SHADER 2;
       Ev_ifstream_open "gl_texture.vert" false false;
       Ev_ifstream_get_all "";
       Ev_ifstream_open "gl_texture.frag" false false;
       Ev_ifstream_get_all "";
       Ev_cout "Compiling Vertex Shader ...";
       Ev_glShaderSource 1 1 "";
       Ev_glCompileShader 1;
       Ev_glGetShaderiv 1 GL_COMPILE_STATUS GL_TRUE;
       Ev_cout "Compiling Fragment Shader ...";
       Ev_glShaderSource 2 1 "";
       Ev_glCompileShader 2;
       Ev_glGetShaderiv 2 GL_COMPILE_STATUS GL_FALSE;
       Ev_glGetShaderiv 2 GL_INFO_LOG_LENGTH (-1) ]) ∧
  ¬ (∃ program_id tr,
       ShaderProgram (negative_length_world true) "gl_texture.vert"
         "gl_texture.frag" []
       = (Returned program_id, tr)).
Proof.
  assert (ShaderProgram (negative_length_world true) "gl_texture.vert"
            "gl_texture.frag" []
          = (Thrown std_length_error,
             [ Ev_glCreateShader GL_VERTEX_SHADER 1;
               Ev_glCreateShader GL_FRAGMENT_SHADER 2;
               Ev_ifstream_open "gl_texture.vert" false false;
               Ev_ifstream_get_all "";
               Ev_ifstream_open "gl_texture.frag" false false;
               Ev_ifstream_get_all "";
               Ev_cout "Compiling Vertex Shader ...";
               Ev_glShaderSource 1 1 "";
               Ev_glCompileShader 1;
               Ev_glGetShaderiv 1 GL_COMPILE_STATUS GL_TRUE;
               Ev_cout "Compiling Fragment Shader ...";
               Ev_glShaderSource 2 1 "";
               Ev_glCompileShader 2;
               Ev_glGetShaderiv 2 GL_COMPILE_STATUS GL_FALSE;
               Ev_glGetShaderiv 2 GL_INFO_LOG_LENGTH (-1) ])) as Hrun
    by (by vm_compute).
  split; [exact Hrun|].
  intros (program_id & tr & Hreturned). rewrite Hrun in Hreturned.
  discriminate Hreturned.
Qed.


(** C2: a 2 by 1 image read from a file of 3 bytes: the buffer has 6 bytes
    and the read stores no more than that. *)
Lemma LoadImage_buffer_never_overrun_witness :
  ∃ texture_id tr,
    LoadImage (working_world (one_file "lena.rgb" [x01; x02; x03]) 0)
      "lena.rgb" 2 1 [] = (texture_id, [] ++ tr) ∧
    LoadImage_buffer_bound 6 tr.
Proof.
  destruct (LoadImage_buffer_never_overrun
              (working_world (one_file "lena.rgb" [x01; x02; x03]) 0)
              "lena.rgb" 2 1 []) as (id & tr & Hrun & _ & Hfits).
  exists id, tr. split; [exact Hrun|]. apply Hfits. vm_compute. by split.
Defined.

(** C9: the same image: the three bytes of the file, then three zeros. *)
Lemma LoadImage_tail_is_zero_witness :
  ∃ texture_id tr,
    LoadImage (working_world (one_file "lena.rgb" [x01; x02; x03]) 0)
      "lena.rgb" 2 1 [] = (texture_id, [] ++ tr) ∧
    ∃ pixels,
      uploaded_pixels tr = [pixels] ∧
      pixels = [x01; x02; x03; x00; x00; x00] ∧
      pixels !! 4%nat = Some x00.
Proof.
  destruct (LoadImage_tail_is_zero
              (working_world (one_file "lena.rgb" [x01; x02; x03]) 0)
              "lena.rgb" 2 1 [])
    as (id & tr & got & pixels & Hrun & _ & Hup & Hgot & _ & Hpix & Hzero & _).
  exists id, tr. split; [exact Hrun|].
  exists pixels. split; [exact Hup|].
  assert (got = [x01; x02; x03]) as -> by (rewrite Hgot; by vm_compute).
  assert (tr = LoadImage_events "lena.rgb" 2 1 6 1 true [x01; x02; x03]
                 [x01; x02; x03; x00; x00; x00]) as ->.
  { assert (LoadImage (working_world (one_file "lena.rgb" [x01; x02; x03]) 0)
              "lena.rgb" 2 1 []
            = (1, LoadImage_events "lena.rgb" 2 1 6 1 true [x01; x02; x03]
                    [x01; x02; x03; x00; x00; x00])) as Heval
      by (by vm_compute).
    rewrite Heval in Hrun. by injection Hrun. }
  injection Hup as <-. split; [done|].
  apply Hzero; [cbn; lia | by vm_compute].
Defined.

(** C1: a driver that rejects everything, with logs of length 4:
    [ShaderProgram] prints the three logs and returns the program 2, which
    did not link. *)
Lemma ShaderProgram_failures_not_fatal_witness :
  ∃ program_id tr,
    ShaderProgram failing_world "gl_texture.vert" "gl_texture.frag" []
    = (Returned program_id, [] ++ tr) ∧
    diagnostics tr = [] ∧
    build_failed tr ∧
    zero_or_invalid program_id tr.
Proof.
  assert (log_lengths_in_range failing_world) as Hw.
  { split; intros h name n [= <-]; cbn; lia. }
  destruct (ShaderProgram_failures_not_fatal failing_world "gl_texture.vert"
              "gl_texture.frag" [] Hw)
    as (id & tr & Hrun & _ & _ & _ & Hquiet & Hinvalid).
  exists id, tr. split; [exact Hrun|]. split; [exact Hquiet|].
  assert (build_failed tr) as Hfailed.
  { assert (ShaderProgram failing_world "gl_texture.vert" "gl_texture.frag" []
            = (Returned 2,
               ShaderProgram_events "gl_texture.vert" "gl_texture.frag"
                 None None
                 {| sa_vertex_shader_id := 1; sa_fragment_shader_id := 1;
                    sa_vertex_status := GL_FALSE; sa_vertex_log_length := 4;
                    sa_vertex_log := String.append "bad" (String Ascii.zero "");
                    sa_fragment_status := GL_FALSE;
                    sa_fragment_log_length := 4;
                    sa_fragment_log := String.append "bad" (String Ascii.zero "");
                    sa_program_id := 2; sa_link_status := GL_FALSE;
                    sa_link_log_length := 4;
                    sa_program_log := String.append "bad" (String Ascii.zero "") |}))
      as Heval by (by vm_compute).
    rewrite Heval in Hrun. injection Hrun as _ <-.
    left. exists 1. unfold ShaderProgram_events.
    do 9 apply list_elem_of_further. apply list_elem_of_here. }
  split; [exact Hfailed | exact (Hinvalid Hfailed)].
Defined.



(** C8: a program without the two inputs: both lookups return -1 and
    4294967295 is what the attribute calls receive. *)
Lemma InitializeGeometry_lookups_unchecked_witness :
  ∃ tr,
    InitializeGeometry failing_world 2 [] = (tt, [] ++ tr) ∧
    Ev_glGetAttribLocation 2 "Position" (-1) ∈ tr ∧
    Ev_glVertexAttribPointer 4294967295 2 GL_FLOAT GL_FALSE 0 0 ∈ tr ∧
    Ev_glEnableVertexAttribArray 4294967295 ∈ tr ∧
    diagnostics tr = [].
Proof.
  destruct (InitializeGeometry_lookups_unchecked failing_world 2 [])
    as (vao & vbo & pa & tbo & ta & tr & Hrun & Htr & Hquiet & _ & Hpos & _).
  exists tr. split; [exact Hrun|].
  assert (InitializeGeometry failing_world 2 []
          = (tt, InitializeGeometry_events 2 1 1 (-1) 1 (-1))) as Heval
    by (by vm_compute).
  assert (pa = -1) as Hpa.
  { rewrite Heval, Htr in Hrun. unfold InitializeGeometry_events in Hrun.
    cbn [app] in Hrun. by injection Hrun. }
  destruct (Hpos Hpa) as [Hpointer Henable].
  split; [|by split].
  rewrite Htr, Hpa. unfold InitializeGeometry_events.
  do 5 apply list_elem_of_further. apply list_elem_of_here.
Defined.


(** * Further properties of [ShaderProgram] and [LoadImage] *)

Lemma c_str_no_nul s : has_nul (c_str s) = false.
Proof.
  induction s as [|c s IH]; [done|].
  cbn. destruct (Ascii.eqb c Ascii.zero) eqn:Hc; [done|].
  cbn. by rewrite Hc.
Qed.

Lemma c_str_without_nul s : has_nul s = false → c_str s = s.
Proof.
  induction s as [|c s IH]; [done|].
  cbn. destruct (Ascii.eqb c Ascii.zero); [done|].
  cbn. intros Hs. by rewrite IH.
Qed.

Lemma c_str_with_nul s :
  has_nul s = true → ∃ rest, s = c_str s +:+ String Ascii.zero rest.
Proof.
  induction s as [|c s IH]; [done|].
  cbn. destruct (Ascii.eqb c Ascii.zero) eqn:Hc.
  - intros _. exists s. apply Ascii.eqb_eq in Hc as ->. done.
  - cbn. intros Hs. destruct (IH Hs) as [rest Hrest].
    exists rest.
    change (String c s = String c (c_str s +:+ String Ascii.zero rest)).
    by f_equal.
Qed.

Lemma i32_u32_small z : 0 ≤ z < 2 ^ 31 → i32 (u32 z) = z.
Proof.
  intros Hz. unfold i32, u32.
  rewrite Z.mod_mod by lia. rewrite Z.mod_small by lia.
  destruct (z <? 2 ^ 31) eqn:Hlt; [done|]. apply Z.ltb_ge in Hlt. lia.
Qed.

Section SourcesAndPixels.
Context (w : World).

(** X1: however a run of [ShaderProgram] ends, the source text that it
    hands to [glShaderSource] for each stage is the content of the file
    up to its first NUL character: it never holds a NUL, it is the whole
    content when that holds none, and otherwise everything from the
    first NUL on is dropped. *)
Theorem ShaderProgram_sources_end_at_nul vertex_shader_file fragment_shader_file h :
  ∃ r tr vs fs vsource fsource,
    ShaderProgram w vertex_shader_file fragment_shader_file h
    = (r, h ++ tr) ∧
    shader_sources tr = [(vs, vsource); (fs, fsource)] ∧
    Forall2
      (λ file source,
         let content := istreambuf_all (w_file w file) in
         has_nul source = false ∧
         (has_nul content = false → source = content) ∧
         (has_nul content = true →
          ∃ rest, content = source +:+ String Ascii.zero rest))
      [vertex_shader_file; fragment_shader_file] [vsource; fsource].
Proof.
  destruct (ShaderProgram_run w vertex_shader_file fragment_shader_file h)
    as (a & Hrun & _).
  eexists _, _, _, _, _, _. split; [exact Hrun|].
  split; [apply shader_sources_ShaderProgram_trace|].
  repeat constructor;
    auto using c_str_no_nul, c_str_without_nul, c_str_with_nul.
Qed.

(** X2: when the file holds at least as many bytes as the buffer, the
    buffer that [LoadImage] uploads is exactly the first
    [(width*height*3) mod 2^32] bytes of the file, in order and without
    padding; bytes of the file beyond that are never read.  A file of
    exactly that size is uploaded byte for byte. *)
Theorem LoadImage_uploads_file_prefix image_file width height h data :
  w_file w image_file = Some data →
  (width * height * 3) mod 2 ^ 32 ≤ Z.of_nat (length data) →
  ∃ texture_id tr,
    LoadImage w image_file width height h = (texture_id, h ++ tr) ∧
    read_requests tr
    = [((width * height * 3) mod 2 ^ 32,
        take (Z.to_nat ((width * height * 3) mod 2 ^ 32)) data)] ∧
    uploaded_pixels tr
    = [take (Z.to_nat ((width * height * 3) mod 2 ^ 32)) data] ∧
    (Z.of_nat (length data) = (width * height * 3) mod 2 ^ 32 →
     uploaded_pixels tr = [data]).
Proof.
  intros Hfile Hlong.
  destruct (LoadImage_run w image_file width height h) as [id Hrun].
  cbn zeta in Hrun. rewrite Hfile in Hrun. cbn [bytes_obtained] in Hrun.
  set (size := (width * height * 3) mod 2 ^ 32) in *.
  assert (0 ≤ size) by (apply Z.mod_pos_bound; lia).
  assert (length (take (Z.to_nat size) data) = Z.to_nat size) as Hlen
    by (rewrite length_take; lia).
  rewrite Hlen, Nat.sub_diag in Hrun. cbn [replicate] in Hrun.
  rewrite app_nil_r in Hrun.
  eexists _, _. split; [exact Hrun|]. do 2 (split; [done|]).
  intros Hexact. cbn. by rewrite take_ge by lia.
Qed.

(** X3: for a width and a height below 2^31 whose image fits in 2^32
    bytes, [glTexImage2D] receives the very width and height and a buffer
    of exactly 3 bytes for each of the width*height pixels. *)
Theorem LoadImage_buffer_matches_dimensions image_file width height h :
  0 ≤ width < 2 ^ 31 →
  0 ≤ height < 2 ^ 31 →
  width * height * 3 < 2 ^ 32 →
  ∃ texture_id tr pixels,
    LoadImage w image_file width height h = (texture_id, h ++ tr) ∧
    Ev_glTexImage2D GL_TEXTURE_2D 0 GL_RGB width height 0 GL_RGB
      GL_UNSIGNED_BYTE pixels ∈ tr ∧
    Z.of_nat (length pixels) = 3 * (width * height).
Proof.
  intros Hwidth Hheight Hfits.
  destruct (LoadImage_run w image_file width height h) as [id Hrun].
  cbn zeta in Hrun. eexists _, _, _. split; [exact Hrun|].
  unfold LoadImage_events. rewrite !i32_u32_small by done. split.
  - do 7 apply list_elem_of_further. apply list_elem_of_here.
  - rewrite length_zero_padded by (apply Z.mod_pos_bound; lia).
    rewrite Z.mod_small by nia. lia.
Qed.

End SourcesAndPixels.


(** * Further properties of [main] *)

Lemma count_calls_app name tr1 tr2 :
  count_calls name (tr1 ++ tr2)
  = (count_calls name tr1 + count_calls name tr2)%nat.
Proof. unfold count_calls. by rewrite List.filter_app, length_app. Qed.

Lemma diagnostics_app tr1 tr2 :
  diagnostics (tr1 ++ tr2) = diagnostics tr1 ++ diagnostics tr2.
Proof. apply omap_app. Qed.


Lemma count_calls_ShaderProgram_events name vf ff vfile ffile a :
  name ∈ loop_call_names →
  count_calls name (ShaderProgram_events vf ff vfile ffile a) = 0%nat.
Proof.
  intros Hname. unfold ShaderProgram_events, report_events.
  unfold loop_call_names in Hname.
  destruct (_ =? _), (_ =? _), (_ =? _);
    repeat (apply elem_of_cons in Hname as [->|Hname]; [reflexivity|]);
    by apply elem_of_nil in Hname.
Qed.

Lemma count_calls_setup_events name files s :
  name ∈ loop_call_names → count_calls name (setup_events files s) = 0%nat.
Proof.
  intros Hname. unfold setup_events. cbn zeta.
  rewrite !count_calls_app, count_calls_ShaderProgram_events by done.
  unfold loop_call_names in Hname.
  repeat (apply elem_of_cons in Hname as [->|Hname]; [reflexivity|]).
  by apply elem_of_nil in Hname.
Qed.

(** Membership in an explicit list. *)
Ltac in_names :=
  unfold loop_call_names;
  repeat first [apply list_elem_of_here | apply list_elem_of_further].

Lemma count_calls_frames name k window :
  count_calls name (frames k window)
  = (k * count_calls name (frame_events window))%nat.
Proof.
  induction k as [|k IH]; [done|].
  cbn [frames]. rewrite count_calls_app, IH. lia.
Qed.

Lemma diagnostics_frames k window : diagnostics (frames k window) = [].
Proof. induction k as [|k IH]; [done|]. done. Qed.


Lemma diagnostics_setup_events files s : diagnostics (setup_events files s) = [].
Proof.
  unfold setup_events. cbn zeta.
  by rewrite !diagnostics_app, ShaderProgram_events_diagnostics.
Qed.



Lemma count_calls_ShaderProgram_thrown_events name vf ff vfile ffile a :
  name ∈ loop_call_names →
  count_calls name (ShaderProgram_thrown_events vf ff vfile ffile a) = 0%nat.
Proof.
  intros Hname. unfold ShaderProgram_thrown_events, report_events.
  unfold loop_call_names in Hname.
  destruct (log_too_long _ _), (sa_vertex_status a =? GL_FALSE),
    (sa_fragment_status a =? GL_FALSE);
    repeat (apply elem_of_cons in Hname as [->|Hname]; [reflexivity|]);
    by apply elem_of_nil in Hname.
Qed.

Lemma count_calls_context_events name init window glew_init supported :
  name ∈ loop_call_names →
  count_calls name (context_events init window glew_init supported) = 0%nat.
Proof.
  intros Hname. unfold loop_call_names in Hname.
  repeat (apply elem_of_cons in Hname as [->|Hname]; [reflexivity|]).
  by apply elem_of_nil in Hname.
Qed.

Lemma diagnostics_ShaderProgram_thrown_events vf ff vfile ffile a :
  diagnostics (ShaderProgram_thrown_events vf ff vfile ffile a) = [].
Proof.
  unfold ShaderProgram_thrown_events, report_events.
  by destruct (log_too_long _ _), (sa_vertex_status a =? GL_FALSE),
    (sa_fragment_status a =? GL_FALSE).
Qed.


(** The run of [main_shape] that reaches the render loop, with the number
    of whole frames it ran. *)
Lemma main_shape_loop w fuel h r tr s :
  match first_close w (su_window s) (h ++ setup_events (w_file w) s) fuel with
  | Some k =>
      r = Some (Returned EXIT_SUCCESS) ∧
      tr = setup_events (w_file w) s ++ frames k (su_window s)
           ++ [Ev_glfwWindowShouldClose (su_window s)
                 (w_glfwWindowShouldClose w
                    (h ++ setup_events (w_file w) s ++ frames k (su_window s))
                    (su_window s));
               Ev_glfwTerminate]
  | None => r = None ∧ tr = setup_events (w_file w) s ++ frames fuel (su_window s)
  end →
  ∃ k tail,
    (k ≤ fuel)%nat ∧
    tr = setup_events (w_file w) s ++ frames k (su_window s) ++ tail ∧
    ((r = Some (Returned EXIT_SUCCESS) ∧
      ∃ answer, tail = [Ev_glfwWindowShouldClose (su_window s) answer;
                        Ev_glfwTerminate]) ∨
     (r = None ∧ k = fuel ∧ tail = [])).
Proof.
  pose proof (find_seq_spec
                (close_requested w (su_window s) (h ++ setup_events (w_file w) s))
                0 fuel) as Hfind.
  unfold first_close.
  destruct (List.find _ _) as [k|]; intros [-> ->].
  - exists k. eexists. split; [lia|]. split; [done|]. left. eauto.
  - exists fuel, []. split; [done|]. rewrite app_nil_r. split; [done|]. by right.
Qed.

(** The five shapes of a run of [main], one by one. *)
Ltac main_shapes Hshape :=
  destruct Hshape as [[-> ->]|[[-> (init & Hinit & ->)]|
    [[-> (init & window & glew_init & Hinit & Hwindow & ->)]|
     [[-> (init & window & glew_init & supported & a
           & Hinit & Hwindow & Hsupported & Hthrows & ->)]|
      (s & Hinit & Hwindow & Hsupported & Hthrows & Hloop)]]]].

Section MainProperties.
Context (w : World).

(** X4: [main] writes exactly one line to [std::cerr] when it returns
    [EXIT_FAILURE], the message of the initialisation step that failed,
    and nothing at all otherwise. *)
Theorem main_diagnostics fuel h :
  ∃ r tr,
    main w fuel h = (r, h ++ tr) ∧
    ((r = Some (Returned EXIT_FAILURE) ∧
      ∃ line,
        diagnostics tr = [line] ∧
        line ∈ [ "Failed to initialize GLFW!";
                 "Failed to open GLFW window, your graphics card is probably only capable of OpenGL 2.1";
                 "Failed to initialize GLEW with OpenGL 3.3!" ]) ∨
     (r ≠ Some (Returned EXIT_FAILURE) ∧ diagnostics tr = [])).
Proof.
  destruct (main_run w fuel h) as (r & tr & Hrun & Hshape & _).
  exists r, tr. split; [exact Hrun|]. main_shapes Hshape.
  - left. split; [done|]. eexists. split; [done|]. in_names.
  - left. split; [done|]. eexists. split; [done|]. in_names.
  - left. split; [done|]. eexists. split; [done|]. in_names.
  - right. split; [done|].
    by rewrite diagnostics_app, diagnostics_ShaderProgram_thrown_events.
  - right. cbn zeta in Hloop.
    apply main_shape_loop in Hloop
      as (k & tail & _ & -> & [[-> [answer ->]]|(-> & _ & ->)]).
    + split; [done|].
      by rewrite !diagnostics_app, diagnostics_setup_events,
        diagnostics_frames.
    + split; [done|].
      by rewrite !diagnostics_app, diagnostics_setup_events,
        diagnostics_frames.
Qed.


(** X6: [main] calls [glfwTerminate] exactly once, as its last call, on
    every return except the one after a failed [glfwInit], where it does
    not call it; a run that is ended by the exception or is still in its
    loop has not called it. *)
Theorem main_terminates_glfw_once fuel h :
  ∃ r tr,
    main w fuel h = (r, h ++ tr) ∧
    ((r = Some (Returned EXIT_FAILURE) ∧
      (∃ line, tr = [Ev_glfwInit 0; Ev_cerr line]) ∧
      count_calls "glfwTerminate" tr = 0%nat) ∨
     ((∃ code, r = Some (Returned code)) ∧
      (∃ init, init ≠ 0 ∧ Ev_glfwInit init ∈ tr) ∧
      count_calls "glfwTerminate" tr = 1%nat ∧
      ends_with [Ev_glfwTerminate] tr) ∨
     ((r = Some (Thrown std_length_error) ∨ r = None) ∧
      count_calls "glfwTerminate" tr = 0%nat)).
Proof.
  destruct (main_run w fuel h) as (r & tr & Hrun & Hshape & _).
  exists r, tr. split; [exact Hrun|]. main_shapes Hshape.
  - left. split; [done|]. split; [by eexists|done].
  - right; left. split; [by eexists|]. split.
    { exists init. split; [done|]. apply list_elem_of_here. }
    split; [done|]. apply ends_with_app_l. by eexists [_].
  - right; left. split; [by eexists|]. split.
    { exists init. split; [done|]. apply list_elem_of_here. }
    split; [done|]. apply ends_with_app_l. by eexists [_].
  - do 2 right. split; [by left|].
    by rewrite count_calls_app, count_calls_context_events,
      count_calls_ShaderProgram_thrown_events by in_names.
  - cbn zeta in Hloop.
    destruct (setup_events_head (w_file w) s) as [rest Hhead].
    apply main_shape_loop in Hloop
      as (k & tail & _ & -> & [[-> [answer ->]]|(-> & _ & ->)]).
    + right; left. split; [by eexists|]. split.
      { exists (su_init s). split; [done|]. rewrite Hhead. apply list_elem_of_here. }
      split.
      * rewrite !count_calls_app, count_calls_frames,
          count_calls_setup_events by in_names.
        cbn. lia.
      * do 2 apply ends_with_app_l. by eexists [_].
    + do 2 right. split; [by right|].
      rewrite !count_calls_app, count_calls_frames,
        count_calls_setup_events by in_names.
      cbn. lia.
Qed.

(** X7: in every run of [main] each frame is complete: the colour is
    set, the buffers are cleared, the frame is presented and the events
    are polled exactly as often as the quad is drawn, at most [fuel]
    times; the window is asked whether to close once per frame drawn, and
    once more when the run returns [EXIT_SUCCESS]. *)
Theorem main_frames_are_complete fuel h :
  ∃ r tr frames_drawn,
    main w fuel h = (r, h ++ tr) ∧
    (frames_drawn ≤ fuel)%nat ∧
    count_calls "glDrawArrays" tr = frames_drawn ∧
    count_calls "glClearColor" tr = frames_drawn ∧
    count_calls "glClear" tr = frames_drawn ∧
    count_calls "glfwSwapBuffers" tr = frames_drawn ∧
    count_calls "glfwPollEvents" tr = frames_drawn ∧
    count_calls "glfwWindowShouldClose" tr
    = (frames_drawn
       + if decide (r = Some (Returned EXIT_SUCCESS)) then 1 else 0)%nat.
Proof.
  destruct (main_run w fuel h) as (r & tr & Hrun & Hshape & _).
  exists r, tr. main_shapes Hshape.
  - exists 0%nat. split; [done|]. split; [lia|]. by repeat split.
  - exists 0%nat. split; [done|]. split; [lia|]. by repeat split.
  - exists 0%nat. split; [done|]. split; [lia|]. by repeat split.
  - exists 0%nat. split; [done|]. split; [lia|].
    rewrite decide_False by done.
    rewrite !count_calls_app, !count_calls_context_events,
      !count_calls_ShaderProgram_thrown_events by in_names.
    by repeat split.
  - cbn zeta in Hloop.
    apply main_shape_loop in Hloop
      as (k & tail & Hk & -> & [[-> [answer ->]]|(-> & _ & ->)]).
    + exists k. split; [done|]. split; [done|].
      rewrite decide_True by done.
      rewrite !count_calls_app, !count_calls_frames,
        !count_calls_setup_events by in_names.
      cbn. repeat split; lia.
    + exists k. split; [done|]. split; [done|].
      rewrite decide_False by done.
      rewrite !count_calls_app, !count_calls_frames,
        !count_calls_setup_events by in_names.
      cbn. repeat split; lia.
Qed.

End MainProperties.


(** * What is bound when the attributes are set up and when the quad is drawn *)

Lemma bindings_after_app b tr1 tr2 :
  bindings_after b (tr1 ++ tr2) = bindings_after (bindings_after b tr1) tr2.
Proof. apply foldl_app. Qed.

Lemma bindings_at_app select b tr1 tr2 :
  bindings_at select b (tr1 ++ tr2)
  = bindings_at select b tr1
    ++ bindings_at select (bindings_after b tr1) tr2.
Proof.
  revert b. induction tr1 as [|e tr1 IH]; intros b; [done|].
  cbn. by rewrite IH, app_assoc.
Qed.

Lemma bindings_after_ShaderProgram_events b vf ff vfile ffile a :
  bindings_after b (ShaderProgram_events vf ff vfile ffile a) = b.
Proof.
  unfold ShaderProgram_events, report_events.
  by destruct (_ =? _), (_ =? _), (_ =? _).
Qed.

Lemma bindings_at_draw_ShaderProgram_events b vf ff vfile ffile a :
  bindings_at is_draw b (ShaderProgram_events vf ff vfile ffile a) = [].
Proof.
  unfold ShaderProgram_events, report_events.
  by destruct (_ =? _), (_ =? _), (_ =? _).
Qed.

Lemma bindings_after_frames b k window :
  bindings_after b (frames k window) = b.
Proof.
  induction k as [|k IH]; [done|].
  cbn [frames]. rewrite bindings_after_app.
  change (bindings_after b (frame_events window)) with b. apply IH.
Qed.

Lemma bindings_at_draw_frames b k window :
  bindings_at is_draw b (frames k window)
  = replicate k (b, Ev_glDrawArrays GL_TRIANGLE_STRIP 0 4).
Proof.
  induction k as [|k IH]; [done|].
  cbn [frames]. rewrite bindings_at_app.
  change (bindings_after b (frame_events window)) with b.
  by rewrite IH.
Qed.

Lemma bindings_at_draw_ShaderProgram_thrown_events b vf ff vfile ffile a :
  bindings_at is_draw b (ShaderProgram_thrown_events vf ff vfile ffile a) = [].
Proof.
  unfold ShaderProgram_thrown_events, report_events.
  by destruct (log_too_long _ _), (sa_vertex_status a =? GL_FALSE),
    (sa_fragment_status a =? GL_FALSE).
Qed.

Lemma requests_after_app q tr1 tr2 :
  requests_after q (tr1 ++ tr2) = requests_after (requests_after q tr1) tr2.
Proof. apply foldl_app. Qed.

Lemma requests_at_app select q tr1 tr2 :
  requests_at select q (tr1 ++ tr2)
  = requests_at select q tr1
    ++ requests_at select (requests_after q tr1) tr2.
Proof.
  revert q. induction tr1 as [|e tr1 IH]; intros q; [done|].
  cbn. by rewrite IH, app_assoc.
Qed.

Lemma requests_after_ShaderProgram_events q vf ff vfile ffile a :
  requests_after q (ShaderProgram_events vf ff vfile ffile a) = q.
Proof.
  unfold ShaderProgram_events, report_events.
  by destruct (_ =? _), (_ =? _), (_ =? _).
Qed.

Lemma requests_at_draw_ShaderProgram_events q vf ff vfile ffile a :
  requests_at is_draw q (ShaderProgram_events vf ff vfile ffile a) = [].
Proof.
  unfold ShaderProgram_events, report_events.
  by destruct (_ =? _), (_ =? _), (_ =? _).
Qed.

Lemma requests_at_draw_ShaderProgram_thrown_events q vf ff vfile ffile a :
  requests_at is_draw q (ShaderProgram_thrown_events vf ff vfile ffile a) = [].
Proof.
  unfold ShaderProgram_thrown_events, report_events.
  by destruct (log_too_long _ _), (sa_vertex_status a =? GL_FALSE),
    (sa_fragment_status a =? GL_FALSE).
Qed.

Lemma requests_after_frames q k window :
  requests_after q (frames k window) = q.
Proof.
  induction k as [|k IH]; [done|].
  cbn [frames]. rewrite requests_after_app.
  change (requests_after q (frame_events window)) with q. apply IH.
Qed.

Lemma requests_at_draw_frames q k window :
  requests_at is_draw q (frames k window)
  = replicate k (q, Ev_glDrawArrays GL_TRIANGLE_STRIP 0 4).
Proof.
  induction k as [|k IH]; [done|].
  cbn [frames]. rewrite requests_at_app.
  change (requests_after q (frame_events window)) with q.
  by rewrite IH.
Qed.

(** The bindings with which [main] enters its render loop. *)
Lemma bindings_after_setup_events files s b0 :
  let b := bindings_after b0 (setup_events files s) in
  b_vertex_array b = su_vao s ∧
  b_texture_unit b = GL_TEXTURE0 ∧
  b_texture_2d b !! GL_TEXTURE0 = Some (su_texture_id s).
Proof.
  unfold setup_events. cbn zeta.
  generalize (bytes_obtained (files "lena.rgb") ((SIZE * SIZE * 3) mod 2 ^ 32)).
  intros got. generalize (got ++ replicate
    (Z.to_nat ((SIZE * SIZE * 3) mod 2 ^ 32) - length got) x00).
  intros pixels.
  rewrite !bindings_after_app, bindings_after_ShaderProgram_events.
  cbn. do 2 (split; [done|]). apply lookup_insert_eq.
Qed.

(** What [main] has asked for when it enters its render loop. *)
Lemma requests_after_setup_events files s q0 :
  let q := requests_after q0 (setup_events files s) in
  q_program q = sa_program_id (su_shaders s) ∧
  q_uniform_1i q !! su_texture_attrib s = Some 0.
Proof.
  unfold setup_events. cbn zeta.
  generalize (bytes_obtained (files "lena.rgb") ((SIZE * SIZE * 3) mod 2 ^ 32)).
  intros got. generalize (got ++ replicate
    (Z.to_nat ((SIZE * SIZE * 3) mod 2 ^ 32) - length got) x00).
  intros pixels.
  rewrite !requests_after_app, requests_after_ShaderProgram_events.
  cbn. split; [done|]. apply lookup_insert_eq.
Qed.

Lemma bindings_at_draw_setup_events files s b0 :
  bindings_at is_draw b0 (setup_events files s) = [].
Proof.
  unfold setup_events. cbn zeta.
  generalize (bytes_obtained (files "lena.rgb") ((SIZE * SIZE * 3) mod 2 ^ 32)).
  intros got. generalize (got ++ replicate
    (Z.to_nat ((SIZE * SIZE * 3) mod 2 ^ 32) - length got) x00).
  intros pixels.
  rewrite !bindings_at_app, bindings_at_draw_ShaderProgram_events. done.
Qed.

Lemma requests_at_draw_setup_events files s q0 :
  requests_at is_draw q0 (setup_events files s) = [].
Proof.
  unfold setup_events. cbn zeta.
  generalize (bytes_obtained (files "lena.rgb") ((SIZE * SIZE * 3) mod 2 ^ 32)).
  intros got. generalize (got ++ replicate
    (Z.to_nat ((SIZE * SIZE * 3) mod 2 ^ 32) - length got) x00).
  intros pixels.
  rewrite !requests_at_app, requests_at_draw_ShaderProgram_events. done.
Qed.

Lemma setup_events_names files s :
  Ev_glCreateProgram (sa_program_id (su_shaders s)) ∈ setup_events files s ∧
  Ev_glGenVertexArrays 1 (su_vao s) ∈ setup_events files s ∧
  Ev_glGenTextures 1 (su_texture_id s) ∈ setup_events files s ∧
  Ev_glGetUniformLocation (sa_program_id (su_shaders s)) "Texture"
    (su_texture_attrib s) ∈ setup_events files s.
Proof.
  unfold setup_events. cbn zeta. rewrite !elem_of_app. split; [|split; [|split]].
  - right; left. unfold ShaderProgram_events. rewrite !elem_of_app.
    do 4 right. left. apply list_elem_of_further, list_elem_of_here.
  - do 3 right; left. apply list_elem_of_here.
  - do 4 right; left. apply list_elem_of_here.
  - do 5 right. apply list_elem_of_here.
Qed.

Section Bound.
Context (w : World).

(** X9: whatever was bound before, [InitializeGeometry] sets up each of
    its two attributes while the vertex array it generated is bound and
    while the buffer bound to [GL_ARRAY_BUFFER] holds that attribute's
    data: the positions for [Position], the texture coordinates for
    [TexCoord].  The two buffers describe the same four vertices, the
    texture coordinate of the vertex at (x, y) being ((x+1)/2, (1-y)/2). *)
Theorem InitializeGeometry_attributes_read_their_data program_id h b0 :
  ∃ tr vao position_attrib texcoord_attrib b1 b2,
    InitializeGeometry w program_id h = (tt, h ++ tr) ∧
    Ev_glGenVertexArrays 1 vao ∈ tr ∧
    Ev_glGetAttribLocation program_id "Position" position_attrib ∈ tr ∧
    Ev_glGetAttribLocation program_id "TexCoord" texcoord_attrib ∈ tr ∧
    bindings_at is_attrib_pointer b0 tr
    = [ (b1, Ev_glVertexAttribPointer (u32 position_attrib) 2 GL_FLOAT
               GL_FALSE 0 0);
        (b2, Ev_glVertexAttribPointer (u32 texcoord_attrib) 2 GL_FLOAT
               GL_FALSE 0 0) ] ∧
    b_vertex_array b1 = vao ∧
    b_vertex_array b2 = vao ∧
    b_buffer_data b1 !! b_array_buffer b1 = Some quad_positions ∧
    b_buffer_data b2 !! b_array_buffer b2 = Some quad_texcoords ∧
    Forall2 (λ p t, (t.1 == (p.1 + 1) / 2 ∧ t.2 == (1 - p.2) / 2)%Q)
      (vertices2 quad_positions) (vertices2 quad_texcoords).
Proof.
  destruct (InitializeGeometry_run w program_id h)
    as (vao & vbo & pa & tbo & ta & Hrun).
  eexists _, vao, pa, ta, _, _. split; [exact Hrun|].
  unfold InitializeGeometry_events.
  split; [apply list_elem_of_here|].
  split; [do 5 apply list_elem_of_further; apply list_elem_of_here|].
  split; [do 11 apply list_elem_of_further; apply list_elem_of_here|].
  split; [reflexivity|]. cbn.
  do 2 (split; [done|]).
  split; [apply lookup_insert_eq|]. split; [apply lookup_insert_eq|].
  repeat constructor.
Qed.

(** X10: whatever was bound and asked for before, [main] makes one draw
    call for each frame it begins, and every one of them is
    [glDrawArrays(GL_TRIANGLE_STRIP, 0, 4)], made while the vertex array
    bound is the one [InitializeGeometry] generated and the active
    texture unit is [GL_TEXTURE0] with the texture of [LoadImage] bound
    to it; the latest [glUseProgram] before it named the program that
    [ShaderProgram] created, and the latest [glUniform1i] for the
    location of [Texture] passed unit 0. *)
Theorem main_draws_with_what_it_set_up fuel h b0 q0 :
  ∃ r tr,
    main w fuel h = (r, h ++ tr) ∧
    length (bindings_at is_draw b0 tr) = frames_begun tr ∧
    length (requests_at is_draw q0 tr) = frames_begun tr ∧
    (∀ b e,
       (b, e) ∈ bindings_at is_draw b0 tr →
       ∃ vao texture_id,
         Ev_glGenVertexArrays 1 vao ∈ tr ∧
         Ev_glGenTextures 1 texture_id ∈ tr ∧
         e = Ev_glDrawArrays GL_TRIANGLE_STRIP 0 4 ∧
         b_vertex_array b = vao ∧
         b_texture_unit b = GL_TEXTURE0 ∧
         b_texture_2d b !! GL_TEXTURE0 = Some texture_id) ∧
    (∀ q e,
       (q, e) ∈ requests_at is_draw q0 tr →
       ∃ program_id location,
         Ev_glCreateProgram program_id ∈ tr ∧
         Ev_glGetUniformLocation program_id "Texture" location ∈ tr ∧
         q_program q = program_id ∧
         q_uniform_1i q !! location = Some 0).
Proof.
  destruct (main_run w fuel h) as (r & tr & Hrun & Hshape & _).
  exists r, tr. split; [exact Hrun|]. main_shapes Hshape.
  - split; [done|]. split; [done|].
    split; intros ? e Hin; by apply elem_of_nil in Hin.
  - split; [done|]. split; [done|].
    split; intros ? e Hin; by apply elem_of_nil in Hin.
  - split; [done|]. split; [done|].
    split; intros ? e Hin; by apply elem_of_nil in Hin.
  - rewrite bindings_at_app, requests_at_app,
      bindings_at_draw_ShaderProgram_thrown_events,
      requests_at_draw_ShaderProgram_thrown_events, frames_begun_app,
      frames_begun_ShaderProgram_thrown_events.
    split; [done|]. split; [done|].
    split; intros ? e Hin; by apply elem_of_nil in Hin.
  - cbn zeta in Hloop.
    pose proof (first_close_spec w (su_window s)
                  (h ++ setup_events (w_file w) s) fuel) as Hspec.
    assert (∃ k tail,
              tr = setup_events (w_file w) s ++ frames k (su_window s) ++ tail ∧
              frames_begun tail = 0%nat ∧
              (∀ b, bindings_at is_draw b tail = []) ∧
              (∀ q, requests_at is_draw q tail = []))
      as (k & tail & -> & Htail & Hbtail & Hqtail).
    { destruct (first_close w _ _ fuel) as [k|]; destruct Hloop as [-> ->].
      - destruct Hspec as (_ & Hanswer & _). rewrite <- app_assoc in Hanswer.
        eexists k, _. split; [done|].
        split; [by apply frames_begun_closing|]. by split.
      - exists fuel, []. by rewrite app_nil_r. }
    rewrite !bindings_at_app, !requests_at_app,
      bindings_at_draw_setup_events, requests_at_draw_setup_events,
      bindings_at_draw_frames, requests_at_draw_frames, Hbtail, Hqtail,
      !app_nil_r.
    rewrite !frames_begun_app, frames_begun_setup_events,
      frames_begun_frames, Htail.
    cbn [app]. rewrite !length_replicate.
    split; [lia|]. split; [lia|].
    destruct (setup_events_names (w_file w) s) as (Hp & Hv & Ht & Hl).
    split.
    + intros b e Hin. apply elem_of_replicate in Hin as [[= -> ->] _].
      destruct (bindings_after_setup_events (w_file w) s b0)
        as (Hb1 & Hb2 & Hb3).
      exists (su_vao s), (su_texture_id s).
      rewrite !elem_of_app. by repeat split; auto.
    + intros q e Hin. apply elem_of_replicate in Hin as [[= -> ->] _].
      destruct (requests_after_setup_events (w_file w) s q0)
        as (Hq1 & Hq2).
      exists (sa_program_id (su_shaders s)), (su_texture_attrib s).
      rewrite !elem_of_app. by repeat split; auto.
Qed.

End Bound.


(** * The status variable of [ShaderProgram] *)

(** Rewrites the answer named by [Ha : a = ...] with what the hypotheses
    say about the world. *)
Ltac use_world Ha :=
  repeat match goal with H : (∀ _, _) |- _ => rewrite H in Ha end.

(** One step of a run in a world described by hypotheses. *)
Ltac step_in_world :=
  lazymatch goal with
  | |- produces (bind _ _) _ _ => apply produces_bind
  | |- produces (try_bind _ _) _ _ => apply produces_try_bind
  | |- produces (ret (std_string ?count ?ch)) _ _ =>
      let s := eval vm_compute in (std_string count ch) in
      change (std_string count ch) with s;
      apply produces_ret; cbn beta iota
  | |- produces (ret _) _ _ => apply produces_ret; cbn beta iota
  | |- produces (emit _) _ _ => apply produces_emit
  | |- produces (ask _ _) _ _ =>
      let a := fresh "a" in
      let Ha := fresh "Ha" in
      apply produces_ask; intros a Ha; cbn beta in Ha; use_world Ha;
      cbn in Ha; first [subst a | clear Ha]
  | |- produces (if ?c then _ else _) _ _ =>
      first [ change c with true; cbn iota
            | let Hc := fresh "Hc" in
              destruct c eqn:Hc;
              [ first [ apply Z.eqb_eq in Hc; done | idtac ] | ] ]
  end.

Section StatusVariable.
Context (w : World).

(** X11: the three checks of [ShaderProgram] share one status variable.
    When the driver writes a status other than [GL_FALSE] for the vertex
    shader and leaves the output parameter untouched in the queries about
    the fragment shader and about the program, the fragment check and the
    link check test the vertex shader's status again: no log is fetched
    or printed for any stage. *)
Theorem ShaderProgram_status_is_carried_over
    vertex_shader_file fragment_shader_file h vs fs status :
  (∀ h', w_glCreateShader w h' GL_VERTEX_SHADER = vs) →
  (∀ h', w_glCreateShader w h' GL_FRAGMENT_SHADER = fs) →
  (∀ h', w_glGetShaderiv w h' vs GL_COMPILE_STATUS = Some status) →
  (∀ h' pname, w_glGetShaderiv w h' fs pname = None) →
  (∀ h' program pname, w_glGetProgramiv w h' program pname = None) →
  status ≠ GL_FALSE →
  ∃ program_id tr,
    ShaderProgram w vertex_shader_file fragment_shader_file h
    = (Returned program_id, h ++ tr) ∧
    Ev_glGetShaderiv vs GL_COMPILE_STATUS status ∈ tr ∧
    Ev_glGetShaderiv fs GL_COMPILE_STATUS status ∈ tr ∧
    Ev_glGetProgramiv program_id GL_LINK_STATUS status ∈ tr ∧
    count_calls "glGetShaderInfoLog" tr = 0%nat ∧
    count_calls "glGetProgramInfoLog" tr = 0%nat ∧
    printed tr = [ "Compiling Vertex Shader ...";
                   "Compiling Fragment Shader ...";
                   "Linking Shader Program ..." ].
Proof.
  intros Hvs Hfs Hvstatus Hfstatus Hpstatus Hstatus.
  cut (produces (ShaderProgram w vertex_shader_file fragment_shader_file) h
         (λ r tr, ∃ program_id,
            r = Returned program_id ∧
            Ev_glGetShaderiv vs GL_COMPILE_STATUS status ∈ tr ∧
            Ev_glGetShaderiv fs GL_COMPILE_STATUS status ∈ tr ∧
            Ev_glGetProgramiv program_id GL_LINK_STATUS status ∈ tr ∧
            count_calls "glGetShaderInfoLog" tr = 0%nat ∧
            count_calls "glGetProgramInfoLog" tr = 0%nat ∧
            printed tr = [ "Compiling Vertex Shader ...";
                           "Compiling Fragment Shader ...";
                           "Linking Shader Program ..." ])).
  { intros (r & tr & Hrun & pid & -> & Hrest). by exists pid, tr. }
  unfold ShaderProgram. autounfold with calls.
  repeat step_in_world.
  cbn [app]. eexists. split; [reflexivity|]. split; [|split; [|split; [|done]]].
  - do 9 apply list_elem_of_further. apply list_elem_of_here.
  - do 13 apply list_elem_of_further. apply list_elem_of_here.
  - do 20 apply list_elem_of_further. apply list_elem_of_here.
Qed.

(** X12: the status variable starts as [GL_FALSE] and the log length as
    0.  When the driver leaves the output parameter of every query
    untouched, [ShaderProgram] takes all three stages for failed, asks
    for each log with a buffer of size 0 and prints an empty line for
    each. *)
Theorem ShaderProgram_with_a_mute_driver
    vertex_shader_file fragment_shader_file h :
  (∀ h' shader pname, w_glGetShaderiv w h' shader pname = None) →
  (∀ h' program pname, w_glGetProgramiv w h' program pname = None) →
  ∃ program_id tr vs fs,
    ShaderProgram w vertex_shader_file fragment_shader_file h
    = (Returned program_id, h ++ tr) ∧
    Ev_glGetShaderiv vs GL_COMPILE_STATUS GL_FALSE ∈ tr ∧
    Ev_glGetShaderInfoLog vs 0 "" ∈ tr ∧
    Ev_glGetShaderiv fs GL_COMPILE_STATUS GL_FALSE ∈ tr ∧
    Ev_glGetShaderInfoLog fs 0 "" ∈ tr ∧
    Ev_glGetProgramiv program_id GL_LINK_STATUS GL_FALSE ∈ tr ∧
    Ev_glGetProgramInfoLog program_id 0 "" ∈ tr ∧
    printed tr = [ "Compiling Vertex Shader ..."; "";
                   "Compiling Fragment Shader ..."; "";
                   "Linking Shader Program ..."; "" ].
Proof.
  intros Hsstatus Hpstatus.
  cut (produces (ShaderProgram w vertex_shader_file fragment_shader_file) h
         (λ r tr, ∃ program_id vs fs,
            r = Returned program_id ∧
            Ev_glGetShaderiv vs GL_COMPILE_STATUS GL_FALSE ∈ tr ∧
            Ev_glGetShaderInfoLog vs 0 "" ∈ tr ∧
            Ev_glGetShaderiv fs GL_COMPILE_STATUS GL_FALSE ∈ tr ∧
            Ev_glGetShaderInfoLog fs 0 "" ∈ tr ∧
            Ev_glGetProgramiv program_id GL_LINK_STATUS GL_FALSE ∈ tr ∧
            Ev_glGetProgramInfoLog program_id 0 "" ∈ tr ∧
            printed tr = [ "Compiling Vertex Shader ..."; "";
                           "Compiling Fragment Shader ..."; "";
                           "Linking Shader Program ..."; "" ])).
  { intros (r & tr & Hrun & pid & vs & fs & -> & Hrest).
    by exists pid, tr, vs, fs. }
  unfold ShaderProgram. autounfold with calls.
  repeat step_in_world.
  cbn [app]. eexists _, _, _. split; [reflexivity|].
  split; [do 9 apply list_elem_of_further; apply list_elem_of_here|].
  split; [do 11 apply list_elem_of_further; apply list_elem_of_here|].
  split; [do 16 apply list_elem_of_further; apply list_elem_of_here|].
  split; [do 18 apply list_elem_of_further; apply list_elem_of_here|].
  split; [do 26 apply list_elem_of_further; apply list_elem_of_here|].
  split; [do 28 apply list_elem_of_further; apply list_elem_of_here|].
  done.
Qed.

End StatusVariable.


(** * The further properties at concrete inputs *)

(** X2: a 2 by 1 image read from a file of 7 bytes: the first 6 bytes are
    uploaded, the seventh is never read. *)
Lemma LoadImage_uploads_file_prefix_witness :
  ∃ texture_id tr,
    LoadImage
      (working_world
         (one_file "lena.rgb" [x01; x02; x03; x04; x05; x06; x07]) 0)
      "lena.rgb" 2 1 [] = (texture_id, [] ++ tr) ∧
    read_requests tr = [(6, [x01; x02; x03; x04; x05; x06])] ∧
    uploaded_pixels tr = [[x01; x02; x03; x04; x05; x06]].
Proof.
  assert (w_file
            (working_world
               (one_file "lena.rgb" [x01; x02; x03; x04; x05; x06; x07]) 0)
            "lena.rgb"
          = Some [x01; x02; x03; x04; x05; x06; x07]) as Hfile
    by (by vm_compute).
  assert ((2 * 1 * 3) mod 2 ^ 32
          ≤ Z.of_nat (length [x01; x02; x03; x04; x05; x06; x07])) as Hlong
    by (by vm_compute).
  destruct (LoadImage_uploads_file_prefix _ "lena.rgb" 2 1 [] _ Hfile Hlong)
    as (id & tr & Hrun & Hread & Hup & _).
  exists id, tr. split; [exact Hrun|].
  rewrite Hread, Hup. split; by vm_compute.
Defined.

(** X3: a 2 by 1 image: the upload is 2 wide, 1 high and has 6 bytes. *)
Lemma LoadImage_buffer_matches_dimensions_witness :
  ∃ texture_id tr pixels,
    LoadImage failing_world "lena.rgb" 2 1 [] = (texture_id, [] ++ tr) ∧
    Ev_glTexImage2D GL_TEXTURE_2D 0 GL_RGB 2 1 0 GL_RGB GL_UNSIGNED_BYTE pixels
      ∈ tr ∧
    Z.of_nat (length pixels) = 6.
Proof.
  assert (0 ≤ 2 < 2 ^ 31) as Hwidth by lia.
  assert (0 ≤ 1 < 2 ^ 31) as Hheight by lia.
  assert (2 * 1 * 3 < 2 ^ 32) as Hfits by lia.
  destruct (LoadImage_buffer_matches_dimensions failing_world "lena.rgb" 2 1 []
              Hwidth Hheight Hfits)
    as (id & tr & pixels & Hrun & Hin & Hlen).
  exists id, tr, pixels. split; [exact Hrun|]. split; [exact Hin|].
  rewrite Hlen. by vm_compute.
Defined.

(** X11: a driver that answers the query about the vertex shader only: the
    fragment shader and the program are taken for good. *)
Lemma ShaderProgram_status_is_carried_over_witness :
  ∃ program_id tr,
    ShaderProgram silent_driver_world "gl_texture.vert" "gl_texture.frag" []
    = (Returned program_id, [] ++ tr) ∧
    Ev_glGetShaderiv 2 GL_COMPILE_STATUS GL_TRUE ∈ tr ∧
    Ev_glGetProgramiv program_id GL_LINK_STATUS GL_TRUE ∈ tr ∧
    printed tr = [ "Compiling Vertex Shader ...";
                   "Compiling Fragment Shader ...";
                   "Linking Shader Program ..." ].
Proof.
  assert (GL_TRUE ≠ GL_FALSE) as Hstatus by done.
  destruct (ShaderProgram_status_is_carried_over silent_driver_world
              "gl_texture.vert" "gl_texture.frag" [] 1 2 GL_TRUE
              (λ _, eq_refl) (λ _, eq_refl) (λ _, eq_refl)
              (λ _ _, eq_refl) (λ _ _ _, eq_refl) Hstatus)
    as (id & tr & Hrun & _ & Hfragment & Hprogram & _ & _ & Hprinted).
  exists id, tr. split; [exact Hrun|]. split; [exact Hfragment|].
  split; [exact Hprogram | exact Hprinted].
Defined.

(** X12: a driver that answers no query: an empty log is printed for each
    of the three stages. *)
Lemma ShaderProgram_with_a_mute_driver_witness :
  ∃ program_id tr,
    ShaderProgram mute_driver_world "gl_texture.vert" "gl_texture.frag" []
    = (Returned program_id, [] ++ tr) ∧
    printed tr = [ "Compiling Vertex Shader ..."; "";
                   "Compiling Fragment Shader ..."; "";
                   "Linking Shader Program ..."; "" ].
Proof.
  destruct (ShaderProgram_with_a_mute_driver mute_driver_world
              "gl_texture.vert" "gl_texture.frag" []
              (λ _ _ _, eq_refl) (λ _ _ _, eq_refl))
    as (id & tr & vs & fs & Hrun & _ & _ & _ & _ & _ & _ & Hprinted).
  exists id, tr. split; [exact Hrun | exact Hprinted].
Defined.
